(** * AgML: dataset metadata registry and validated Helios parameter stores

    A shallow embedding of [agml/data/metadata.py] (class [DatasetMetadata])
    and [agml/synthetic/options.py] (classes [Parameters], [CanopyParameters],
    [CameraParameters], [LiDARParameters], [HeliosOptions]).

    Python objects become explicit values, instance dictionaries become
    insertion-ordered association lists, and a raised exception becomes the
    [Raise] branch of [result]. *)

From Stdlib Require Import String Ascii List ZArith QArith Bool Lia.
Import ListNotations.
Local Set Warnings "-register-all".
Local Open Scope list_scope.
Local Open Scope string_scope.

(** ** Python values *)

(** The values that reach the modelled code: what [json.load] produces
    (None, bool, int, float, str, list, dict with str keys) and objects that
    implement [__fspath__] such as [pathlib.Path].  A finite float is the
    rational it denotes. *)
Inductive value : Type :=
| VNone
| VBool (b : bool)
| VInt (n : Z)
| VFloat (q : Q)
| VStr (s : string)
| VList (l : list value)
| VDict (d : list (string * value))
| VPath (p : string).

(** ** Exceptions *)

Inductive annot : Type :=
| Number                 (* numbers.Number *)
| Str                    (* str *)
| PathLike               (* os.PathLike *)
| ListOf (a : annot).    (* typing.List[a] *)

(** The [TypeError]s of the model.  [Mismatch] carries the interpolated parts
    of the f-string of [Parameters.__setattr__] ([type(value)] is a function
    of [value]); the others are raised by the interpreter. *)
Inductive type_error : Type :=
| Mismatch (annotation : annot) (key : string) (val : value)
| SubscriptedGeneric                 (* isinstance(x, List[...]) *)
| UnexpectedKeyword (key : string)   (* __init__() got an unexpected keyword *)
| MultipleValues (key : string)      (* got multiple values for keyword *)
| Unhashable (v : value)             (* unhashable type: 'list' / 'dict' *)
| FloatArgument (v : value)          (* float() argument must be a string or a real number *)
| NoLen (v : value).                 (* object of type ... has no len() *)

(** [KeyError arg]: [arg] is the missing key when a plain dict raises, and
    the sentence built by [_MetadataDict.__getitem__] otherwise. *)
Inductive exn : Type :=
| AttributeError (msg : string)
| KeyError (arg : string)
| ValueError (msg : string)
| TypeError (why : type_error).

Inductive exn_class : Type := CAttributeError | CKeyError | CValueError | CTypeError.

Definition class_of (e : exn) : exn_class :=
  match e with
  | AttributeError _ => CAttributeError
  | KeyError _ => CKeyError
  | ValueError _ => CValueError
  | TypeError _ => CTypeError
  end.

Inductive result (A : Type) : Type :=
| Ok (a : A)
| Raise (e : exn).
Arguments Ok {A} a.
Arguments Raise {A} e.

Definition bind {A B : Type} (m : result A) (f : A -> result B) : result B :=
  match m with
  | Ok a => f a
  | Raise e => Raise e
  end.

Notation "x <- m ;; k" := (bind m (fun x => k))
  (at level 61, m at next level, right associativity).

Definition raises {A : Type} (m : result A) (c : exn_class) : Prop :=
  exists e, m = Raise e /\ class_of e = c.

(** ** Insertion-ordered dictionaries *)

Section Dict.
Context {K V : Type} (eqb : K -> K -> bool).

Fixpoint dict_get (k : K) (d : list (K * V)) : option V :=
  match d with
  | [] => None
  | (k', v) :: d' => if eqb k' k then Some v else dict_get k d'
  end.

Definition dict_mem (k : K) (d : list (K * V)) : bool :=
  match dict_get k d with Some _ => true | None => false end.

(** [d[k] = v]: an existing key keeps its position (and the stored key
    object), a new key goes to the end. *)
Fixpoint dict_set (k : K) (v : V) (d : list (K * V)) : list (K * V) :=
  match d with
  | [] => [(k, v)]
  | (k', v') :: d' =>
      if eqb k' k then (k', v) :: d' else (k', v') :: dict_set k v d'
  end.

(** [dict(pairs)] *)
Definition dict_of (pairs : list (K * V)) : list (K * V) :=
  fold_left (fun d kv => dict_set (fst kv) (snd kv) d) pairs [].
End Dict.

Definition sget {V : Type} := @dict_get string V String.eqb.
Definition smem {V : Type} := @dict_mem string V String.eqb.
Definition sset {V : Type} := @dict_set string V String.eqb.

(** ** agml/synthetic/options.py *)

Module Options.

(** A dataclass: its name and its [__annotations__] in declaration order.
    Every field of the three classes defaults to [None]. *)
Record dataclass : Type := {
  class_name : string;
  __annotations__ : list (string * annot)
}.

Record instance : Type := {
  cls : dataclass;
  __dict__ : list (string * value)
}.

(** [isinstance(value, annotation)].  A subscripted generic cannot be used in
    an instance check: the interpreter raises [TypeError]. *)
Definition isinstance (v : value) (a : annot) : result bool :=
  match a with
  | Number => Ok (match v with VBool _ | VInt _ | VFloat _ => true | _ => false end)
  | Str => Ok (match v with VStr _ => true | _ => false end)
  | PathLike => Ok (match v with VPath _ => true | _ => false end)
  | ListOf _ => Raise (TypeError SubscriptedGeneric)
  end.

(** [hasattr(self, name)]: the instance dictionary, then the class
    attributes (a dataclass keeps the default of each field on the class). *)
Definition hasattr (self : instance) (name : string) : bool :=
  smem name (__dict__ self) || smem name (__annotations__ (cls self)).

(** [getattr(self, name)] *)
Definition getattr (self : instance) (name : string) : result value :=
  match sget name (__dict__ self) with
  | Some v => Ok v
  | None =>
      if smem name (__annotations__ (cls self)) then Ok VNone
      else Raise (AttributeError
             ("'" ++ class_name (cls self) ++ "' object has no attribute '" ++ name ++ "'"))
  end.

(** [object.__setattr__(self, key, value)] *)
Definition object_setattr (self : instance) (key : string) (v : value) : instance :=
  {| cls := cls self; __dict__ := sset key v (__dict__ self) |}.

(** [Parameters.__setattr__] *)
Definition __setattr__ (self : instance) (key : string) (v : value) : result instance :=
  if negb (smem key (__dict__ self)) then
    if negb (hasattr self "_block_new_attributes") then
      Ok (object_setattr self key v)
    else
      Raise (AttributeError ("Cannot assign new attributes '" ++ key ++ "' "
                             ++ "to class " ++ class_name (cls self) ++ "."))
  else
    match sget key (__annotations__ (cls self)) with
    | None => Raise (KeyError key)
    | Some annotation =>
        ok <- isinstance v annotation ;;
        if negb ok then Raise (TypeError (Mismatch annotation key v))
        else Ok (object_setattr self key v)
    end.

(** [Parameters.__post_init__] *)
Definition __post_init__ (self : instance) : result instance :=
  __setattr__ self "_block_new_attributes" (VBool true).

(** The value a field receives from a call: the keyword when it is passed,
    the default [None] of the field otherwise. *)
Definition kwarg (kwargs : list (string * value)) (f : string) : value :=
  match sget f kwargs with Some v => v | None => VNone end.

(** The body of the generated [__init__]: one [self.f = f] per field, in
    declaration order, a missing keyword taking the default [None]. *)
Fixpoint init_fields (self : instance) (fields : list string)
         (kwargs : list (string * value)) : result instance :=
  match fields with
  | [] => Ok self
  | f :: fs =>
      self' <- __setattr__ self f (kwarg kwargs f) ;;
      init_fields self' fs kwargs
  end.

(** Calling a dataclass [C] deriving from [Parameters] with the entries of
    [kwargs] as keywords: the first keyword that names no field is refused
    before the body runs, as a second value for the parameter [self] when it
    is called [self] and as an unexpected keyword otherwise. *)
Definition __init__ (c : dataclass) (kwargs : list (string * value)) : result instance :=
  match find (fun kv => negb (smem (fst kv) (__annotations__ c))) kwargs with
  | Some (k, _) =>
      Raise (TypeError (if String.eqb k "self" then MultipleValues k
                        else UnexpectedKeyword k))
  | None =>
      self <- init_fields {| cls := c; __dict__ := [] |}
                (map fst (__annotations__ c)) kwargs ;;
      __post_init__ self
  end.

(** The three schemas, field for field. *)
Definition CanopyParameters : dataclass :=
  {| class_name := "CanopyParameters";
     __annotations__ := [
       ("leaf_length", Number);
       ("leaf_width", Number);
       ("leaf_size", Number);
       ("leaf_subdivisions", ListOf Number);
       ("leaf_texture_file", Str);
       ("leaf_color", Str);
       ("leaf_angle_distribution", Str);
       ("leaf_area_index", Number);
       ("leaf_area_density", Number);
       ("leaf_spacing_fraction", Number);
       ("stem_color", ListOf Number);
       ("stem_subdivisions", Number);
       ("stems_per_plant", Number);
       ("stem_radius", Number);
       ("plant_height", Number);
       ("grape_radius", Number);
       ("grape_color", ListOf Number);
       ("grape_subdivisions", Number);
       ("fruit_color", ListOf Number);
       ("fruit_radius", Number);
       ("fruit_subdivisions", Number);
       ("fruit_texture_file", PathLike);
       ("wood_texture_file", PathLike);
       ("wood_subdivisions", Number);
       ("clusters_per_stem", Number);
       ("plant_spacing", Number);
       ("row_spacing", Number);
       ("level_spacing", Number);
       ("plant_count", ListOf Number);
       ("canopy_origin", ListOf Number);
       ("canopy_rotation", Number);
       ("canopy_height", Number);
       ("canopy_extent", ListOf Number);
       ("canopy_configuration", Str);
       ("base_height", Number);
       ("crown_radius", Number);
       ("cluster_radius", Number);
       ("cluster_height_max", Number);
       ("trunk_height", Number);
       ("trunk_radius", Number);
       ("cordon_height", Number);
       ("cordon_radius", Number);
       ("cordon_spacing", Number);
       ("shoot_length", Number);
       ("shoot_radius", Number);
       ("shoots_per_cordon", Number);
       ("shoot_angle", Number);
       ("shoot_angle_tip", Number);
       ("shoot_angle_base", Number);
       ("shoot_color", ListOf Number);
       ("shoot_subdivisions", ListOf Number);
       ("needle_width", Number);
       ("needle_length", Number);
       ("needle_color", ListOf Number);
       ("needle_subdivisions", ListOf Number);
       ("branch_length", Number);
       ("branches_per_level", Number);
       ("buffer", Str) ] |}.

Definition CameraParameters : dataclass :=
  {| class_name := "CameraParameters";
     __annotations__ := [
       ("image_resolution", ListOf Number);
       ("camera_position", ListOf Number);
       ("camera_lookat", ListOf Number) ] |}.

Definition LiDARParameters : dataclass :=
  {| class_name := "LiDARParameters";
     __annotations__ := [
       ("origin", ListOf Number);
       ("size", ListOf Number);
       ("thetaMin", Number);
       ("thetaMax", Number);
       ("phiMin", Number);
       ("phiMax", Number);
       ("exitDiameter", Number);
       ("beamDivergence", Number);
       ("ASCII_format", Str) ] |}.

(** *** HeliosOptions *)

(** [load_default_helios_configuration()] reads [helios_config.json]; the
    loader and the file are not part of the sources at hand.  The record
    gives the table the shape that [_initialize_canopy] indexes:
    [['canopy']['types']], [['canopy']['parameters'][canopy]],
    [['camera']['parameters']] and [['lidar']['parameters']]. *)
Record helios_config : Type := {
  canopy_types : list string;
  canopy_parameters : list (string * list (string * value));
  camera_parameters : list (string * value);
  lidar_parameters : list (string * value)
}.

Record HeliosOptions : Type := {
  _canopy : string;
  _canopy_parameters : instance;
  _camera_parameters : instance;
  _lidar_parameters : instance
}.

(** [repr] of a list of names (names without quotes or escapes). *)
Definition repr_names (l : list string) : string :=
  "[" ++ String.concat ", " (map (fun s => "'" ++ s ++ "'") l) ++ "]".

Section Helios.
(** The class attribute [_default_config], loaded once at import. *)
Variable _default_config : helios_config.

(** [HeliosOptions._initialize_canopy].  The four attributes are assigned
    in the order of the source; the [print] of the defaults writes to
    standard output only and is left out.  [None] is the default of the
    [canopy] argument. *)
Definition _initialize_canopy (canopy : option string) : result HeliosOptions :=
  match canopy with
  | None =>
      Raise (ValueError ("Received invalid canopy type 'None', expected one of: "
                         ++ repr_names (canopy_types _default_config) ++ "."))
  | Some canopy =>
      if negb (existsb (String.eqb canopy) (canopy_types _default_config)) then
        Raise (ValueError ("Received invalid canopy type '" ++ canopy
                           ++ "', expected one of: "
                           ++ repr_names (canopy_types _default_config) ++ "."))
      else
        match sget canopy (canopy_parameters _default_config) with
        | None => Raise (KeyError canopy)
        | Some defaults =>
            cp <- __init__ CanopyParameters defaults ;;
            cam <- __init__ CameraParameters (camera_parameters _default_config) ;;
            lid <- __init__ LiDARParameters (lidar_parameters _default_config) ;;
            Ok {| _canopy := canopy;
                  _canopy_parameters := cp;
                  _camera_parameters := cam;
                  _lidar_parameters := lid |}
        end
  end.

(** [HeliosOptions.__init__] *)
Definition HeliosOptions__init__ (canopy : option string) : result HeliosOptions :=
  _initialize_canopy canopy.

(** [HeliosOptions.reset] *)
Definition reset (self : HeliosOptions) : result HeliosOptions :=
  _initialize_canopy (Some (_canopy self)).
End Helios.

(** The read-only properties [canopy], [camera] and [lidar]. *)
Inductive view : Type := canopy | camera | lidar.

Definition get_view (self : HeliosOptions) (w : view) : instance :=
  match w with
  | canopy => _canopy_parameters self
  | camera => _camera_parameters self
  | lidar => _lidar_parameters self
  end.

(** [self.<view>.<key> = value]: the property returns the sub-store object
    itself, so the assignment is seen through the bundle. *)
Definition assign (self : HeliosOptions) (w : view) (key : string) (v : value)
  : result HeliosOptions :=
  s <- __setattr__ (get_view self w) key v ;;
  Ok match w with
     | canopy => {| _canopy := _canopy self; _canopy_parameters := s;
                    _camera_parameters := _camera_parameters self;
                    _lidar_parameters := _lidar_parameters self |}
     | camera => {| _canopy := _canopy self;
                    _canopy_parameters := _canopy_parameters self;
                    _camera_parameters := s;
                    _lidar_parameters := _lidar_parameters self |}
     | lidar => {| _canopy := _canopy self;
                   _canopy_parameters := _canopy_parameters self;
                   _camera_parameters := _camera_parameters self;
                   _lidar_parameters := s |}
     end.

(** A caller performing a sequence of assignments, an assignment that raises
    leaving the bundle as it was. *)
Fixpoint mutate (self : HeliosOptions) (ms : list (view * string * value)) : HeliosOptions :=
  match ms with
  | [] => self
  | (w, key, v) :: ms' =>
      match assign self w key v with
      | Ok self' => mutate self' ms'
      | Raise _ => mutate self ms'
      end
  end.

(** A caller performing a sequence of assignments on one store, an
    assignment that raises leaving the store as it was. *)
Fixpoint assigns (self : instance) (ms : list (string * value)) : instance :=
  match ms with
  | [] => self
  | (key, v) :: ms' =>
      match __setattr__ self key v with
      | Ok self' => assigns self' ms'
      | Raise _ => assigns self ms'
      end
  end.

(** The schema behind each view, and the defaults it is built from. *)
Definition schema (w : view) : dataclass :=
  match w with
  | canopy => CanopyParameters
  | camera => CameraParameters
  | lidar => LiDARParameters
  end.

Definition defaults_of (cfg : helios_config) (canopy_type : string) (w : view)
  : list (string * value) :=
  match w with
  | canopy =>
      match sget canopy_type (canopy_parameters cfg) with
      | Some d => d
      | None => []
      end
  | camera => camera_parameters cfg
  | lidar => lidar_parameters cfg
  end.

(** A sample default table in the shape of [helios_config.json]. *)
Definition sample_config : helios_config :=
  {| canopy_types := ["VSPGrapevine"; "HomogeneousCanopy"];
     canopy_parameters :=
       [("VSPGrapevine",
          [("leaf_width", VFloat (18 # 100));
           ("leaf_subdivisions", VList [VInt 1; VInt 1]);
           ("leaf_texture_file", VStr "plugins/canopygenerator/textures/GrapeLeaf.png");
           ("plant_spacing", VFloat (15 # 10));
           ("row_spacing", VInt 2);
           ("plant_count", VList [VInt 3; VInt 3])]);
        ("HomogeneousCanopy",
          [("leaf_size", VList [VFloat (1 # 10); VFloat (1 # 10)]);
           ("leaf_area_index", VInt 1);
           ("canopy_height", VInt 1)])];
     camera_parameters :=
       [("image_resolution", VList [VInt 1000; VInt 800]);
        ("camera_position", VList [VInt 0; VInt 0; VInt 1]);
        ("camera_lookat", VList [VInt 0; VInt 0; VInt 0])];
     lidar_parameters :=
       [("origin", VList [VInt 0; VInt 0; VInt 0]);
        ("size", VList [VInt 250; VInt 450]);
        ("thetaMin", VInt 0);
        ("thetaMax", VInt 180);
        ("ASCII_format", VStr "x y z")] |}.

(** The attribute that [__post_init__] adds to an instance. *)
Definition seal : string := "_block_new_attributes".

Definition fields (c : dataclass) : list string := map fst (__annotations__ c).

(** A class whose fields are pairwise distinct and none of which is the seal. *)
Definition well_formed (c : dataclass) : Prop :=
  NoDup (fields c) /\ ~ In seal (fields c).

(** The state of a store whose constructor has returned: the fields in
    declaration order, then the seal. *)
Definition sealed (c : dataclass) (s : instance) : Prop :=
  cls s = c /\ map fst (__dict__ s) = (fields c ++ [seal])%list.

Definition built (c : dataclass) (kwargs : list (string * value)) : instance :=
  {| cls := c;
     __dict__ := (map (fun f => (f, kwarg kwargs f)) (fields c)
                  ++ [(seal, VBool true)])%list |}.

(** The bundle that [HeliosOptions("VSPGrapevine")] yields on the sample table. *)
Definition sample_options : HeliosOptions :=
  {| _canopy := "VSPGrapevine";
     _canopy_parameters := built CanopyParameters (defaults_of sample_config "VSPGrapevine" canopy);
     _camera_parameters := built CameraParameters (camera_parameters sample_config);
     _lidar_parameters := built LiDARParameters (lidar_parameters sample_config) |}.

Definition sample_canopy_store : instance := _canopy_parameters sample_options.

End Options.

(** ** agml/data/metadata.py *)

Module Metadata.

(** [type(v).__name__], as it appears in the interpreter's messages. *)
Definition type_name (v : value) : string :=
  match v with
  | VNone => "NoneType"
  | VBool _ => "bool"
  | VInt _ => "int"
  | VFloat _ => "float"
  | VStr _ => "str"
  | VList _ => "list"
  | VDict _ => "dict"
  | VPath _ => "PosixPath"
  end.

Definition no_attribute (v : value) (attr : string) : exn :=
  AttributeError ("'" ++ type_name v ++ "' object has no attribute '" ++ attr ++ "'").

(** [v.keys()] and [v.values()] *)
Definition keys (v : value) : result (list string) :=
  match v with
  | VDict d => Ok (map fst d)
  | _ => Raise (no_attribute v "keys")
  end.

Definition values (v : value) : result (list value) :=
  match v with
  | VDict d => Ok (map snd d)
  | _ => Raise (no_attribute v "values")
  end.

(** [isinstance(v, dict)] *)
Definition is_dict (v : value) : bool :=
  match v with VDict _ => true | _ => false end.

(** [a, b = vs] *)
Definition unpack2 (vs : list value) : result (value * value) :=
  match vs with
  | [] => Raise (ValueError "not enough values to unpack (expected 2, got 0)")
  | [_] => Raise (ValueError "not enough values to unpack (expected 2, got 1)")
  | [a; b] => Ok (a, b)
  | _ => Raise (ValueError "too many values to unpack (expected 2)")
  end.

(** [name.replace(old, new)] for one-character [old] and [new]. *)
Fixpoint replace (s : string) (old new : ascii) : string :=
  match s with
  | EmptyString => EmptyString
  | String c s' => String (if Ascii.eqb c old then new else c) (replace s' old new)
  end.

(** Hashing and equality of dictionary keys: bool, int and float compare by
    numeric value, and a list or a dict cannot be hashed. *)
Definition hashable (v : value) : bool :=
  match v with VList _ | VDict _ => false | _ => true end.

Definition number_of (v : value) : option Q :=
  match v with
  | VBool b => Some (inject_Z (if b then 1 else 0))
  | VInt n => Some (inject_Z n)
  | VFloat q => Some q
  | _ => None
  end.

Definition key_eqb (a b : value) : bool :=
  match number_of a, number_of b with
  | Some x, Some y => Qeq_bool x y
  | None, None =>
      match a, b with
      | VNone, VNone => true
      | VStr s, VStr t => String.eqb s t
      | VPath p, VPath q => String.eqb p q
      | _, _ => false
      end
  | _, _ => false
  end.

(** [dict(pairs)] with labels as keys: the first label that cannot be hashed
    stops the construction. *)
Fixpoint dict_of_labels (pairs : list (value * Z)) (acc : list (value * Z))
  : result (list (value * Z)) :=
  match pairs with
  | [] => Ok acc
  | (k, n) :: rest =>
      if hashable k then dict_of_labels rest (dict_set key_eqb k n acc)
      else Raise (TypeError (Unhashable k))
  end.

(** Modelled from the spec: [agml.utils.general.has_nested_dicts] is imported
    by [metadata.py] and its source is missing.  The spec has the accessors
    branch on whether [classes] "contains nested mappings": the model answers
    whether some value of the mapping is itself a mapping, and answers no on
    a value that is not a mapping. *)
Definition has_nested_dicts (obj : value) : bool :=
  match obj with
  | VDict d => existsb is_dict (map snd d)
  | _ => false
  end.

(** Modelled from the spec: [agml.utils.data.maybe_you_meant] is imported by
    [metadata.py] and its source is missing.  The spec has the message of the
    invalid-source error include "the nearest-matching known name(s)
    (fuzzy suggestion)", "at least one suggested name when a near-match exists
    (e.g., one-character edit distance)".  [near_match] holds of two names at
    most one insertion, deletion or substitution apart; [maybe_you_meant]
    appends every known near match to the message. *)
Fixpoint near_match (a b : string) : bool :=
  match a, b with
  | EmptyString, EmptyString => true
  | EmptyString, String _ b' => String.eqb b' EmptyString
  | String _ a', EmptyString => String.eqb a' EmptyString
  | String x a', String y b' =>
      if Ascii.eqb x y then near_match a' b'
      else String.eqb a' b' || String.eqb a' b || String.eqb a b'
  end.

Definition quote (s : string) : string := "'" ++ s ++ "'".

Definition maybe_you_meant (name msg : string) (source : list string) : string :=
  match filter (near_match name) source with
  | [] => msg
  | suggestions =>
      msg ++ " Maybe you meant: " ++ String.concat ", " (map quote suggestions) ++ "?"
  end.

(** [_MetadataDict]: a dict that remembers the dataset it belongs to. *)
Record _MetadataDict : Type := {
  items : list (string * value);
  _dataset : string
}.

(** [_MetadataDict.__init__], called with the entries of a record as keywords
    next to [dataset = name].  An entry that is itself called [dataset]
    collides with the keyword where the call is made; an entry called [self]
    then collides with the first parameter of the method.  Every other entry
    goes to the dict.  The one caller always passes a name, so the
    [ValueError] for a missing [dataset] does not arise. *)
Definition _MetadataDict__init__ (kwargs : list (string * value)) (dataset : string)
  : result _MetadataDict :=
  if smem "dataset" kwargs then Raise (TypeError (MultipleValues "dataset"))
  else if smem "self" kwargs then Raise (TypeError (MultipleValues "self"))
  else Ok {| items := kwargs; _dataset := dataset |}.

(** [_MetadataDict.__getitem__] *)
Definition __getitem__ (self : _MetadataDict) (item : string) : result value :=
  match sget item (items self) with
  | Some v => Ok v
  | None =>
      Raise (KeyError ("The dataset '" ++ _dataset self ++ "' is missing metadata '"
                       ++ item ++ "'. "
                       ++ "Please bring this issue to the attention of the AgML team."))
  end.

Record DatasetMetadata : Type := {
  _name : string;
  _metadata : _MetadataDict;
  _citation_meta : _MetadataDict
}.

(** What a registry is compared with or built from. *)
Inductive object : Type :=
| OValue (v : value)
| OInfo (m : DatasetMetadata).

Definition __repr__ (self : DatasetMetadata) : string := _name self.
Definition __str__ (self : DatasetMetadata) : string := _name self.
Definition __fspath__ (self : DatasetMetadata) : string := _name self.
Definition name (self : DatasetMetadata) : string := _name self.

(** [DatasetMetadata.__eq__] *)
Definition __eq__ (self : DatasetMetadata) (other : object) : bool :=
  match other with
  | OInfo other => String.eqb (_name self) (_name other)
  | OValue _ => false
  end.

(** The named tuples of the accessors. *)
Record Tasks : Type := { ml : value; ag : value }.
Record Location : Type := { continent : value; country : value }.
Record ImageStats : Type := { mean : value; std : value }.

(** The results of the class accessors: one mapping, or one entry per class
    type whose value is a mapping when the source entry is one and the source
    entry itself otherwise. *)
Inductive per_type (M : Type) : Type :=
| Mapped (m : M)
| Verbatim (v : value).
Arguments Mapped {M} m.
Arguments Verbatim {M} v.

Inductive class_view (M : Type) : Type :=
| Flat (m : M)
| Nested (out : list (string * per_type M)).
Arguments Flat {M} m.
Arguments Nested {M} out.

Inductive classes_view : Type :=
| ClassList (l : list value)
| ClassLists (g : list (string * list value)).

Fixpoint mapM {A B : Type} (f : A -> result B) (l : list A) : result (list B) :=
  match l with
  | [] => Ok []
  | a :: l' => b <- f a ;; bs <- mapM f l' ;; Ok (b :: bs)
  end.

(** [d[key]] on a plain dict: the missing key is the argument of the error. *)
Definition subscript {V : Type} (d : list (string * V)) (key : string) : result V :=
  match sget key d with
  | Some v => Ok v
  | None => Raise (KeyError key)
  end.

(** [DatasetMetadata(name)] takes a name or another registry. *)
Inductive name_arg : Type :=
| ByName (s : string)
| ByInfo (m : DatasetMetadata).

(** [DatasetMetadata.__getattr__], which the interpreter calls once the
    ordinary lookup of [key] has failed.  [found] is the outcome of the
    [object.__getattribute__(self, key)] that the method tries first; it
    depends on the attributes of the base class, whose source is not at
    hand.  The bare [except] sends every failure of it to the record.  The
    result is the attribute found, or the entry of the record. *)
Definition DatasetMetadata__getattr__ {A : Type} (self : DatasetMetadata)
           (key : string) (found : result A) : result (A + value) :=
  match found with
  | Ok a => Ok (inl a)
  | Raise _ =>
      if smem key (items (_metadata self)) then
        v <- __getitem__ (_metadata self) key ;;
        Ok (inr v)
      else
        Raise (AttributeError
                 (maybe_you_meant key
                    ("Received invalid info parameter: '" ++ key ++ "'.")
                    (map fst (items (_metadata self)))))
  end.

(** Reading a property of a registry, [self.key]: the getter runs, and
    because the class defines [__getattr__] an [AttributeError] raised inside
    the getter sends the lookup there, where [object.__getattribute__] runs
    the getter once more and fails the same way.  The result is the value of
    the property, or the entry of the record under the name of the property;
    any other exception of the getter reaches the caller. *)
Definition attribute {A : Type} (self : DatasetMetadata) (key : string)
           (fget : result A) : result (A + value) :=
  match fget with
  | Ok a => Ok (inl a)
  | Raise (AttributeError _) => DatasetMetadata__getattr__ self key fget
  | Raise e => Raise e
  end.

(** [len(v)]; a string of the model is a sequence of characters. *)
Definition len (v : value) : result nat :=
  match v with
  | VStr s => Ok (String.length s)
  | VList l => Ok (length l)
  | VDict d => Ok (length d)
  | _ => Raise (TypeError (NoLen v))
  end.

Section Registry.
(** [load_public_sources()] and [load_citation_sources()]: the two tables,
    keyed by dataset name.  The loaders and the JSON files are not part of
    the sources at hand. *)
Variable source_info : list (string * list (string * value)).
Variable citation_info : list (string * list (string * value)).

(** [int(float(x))].  Python parses and rounds the text of a float; the
    accessors are stated for any such coercion. *)
Variable int_float : value -> result Z.

(** The end of [_load_source_info], from [self._name = name] on: the three
    attributes, the citation record being looked up under the resolved
    name in the citation table as it is. *)
Definition store_records (name : string) : result DatasetMetadata :=
  record <- subscript source_info name ;;
  metadata <- _MetadataDict__init__ record name ;;
  (* Load citation information. *)
  cite <- subscript citation_info name ;;
  citation_meta <- _MetadataDict__init__ cite name ;;
  Ok {| _name := name; _metadata := metadata; _citation_meta := citation_meta |}.

(** [DatasetMetadata._load_source_info], with the lines handed to
    [logging.log] as first component. *)
Definition _load_source_info (arg : name_arg) : list string * result DatasetMetadata :=
  let name := match arg with ByInfo m => name m | ByName s => s end in
  if negb (smem name source_info) then
    if negb (smem (replace name "-" "_") source_info) then
      let msg := "Received invalid public source: '" ++ name ++ "'." in
      let msg := maybe_you_meant name msg (map fst source_info) in
      ([], Raise (ValueError msg))
    else
      (["Interpreted dataset '" ++ name ++ "' as '" ++ replace name "-" "_" ++ ".'"],
       store_records (replace name "-" "_"))
  else ([], store_records name).

(** [DatasetMetadata.__init__] *)
Definition DatasetMetadata__init__ (arg : name_arg) : list string * result DatasetMetadata :=
  _load_source_info arg.

Definition num_images (self : DatasetMetadata) : result Z :=
  n <- __getitem__ (_metadata self) "n_images" ;;
  int_float n.

Definition tasks (self : DatasetMetadata) : result Tasks :=
  ml_task <- __getitem__ (_metadata self) "ml_task" ;;
  ag_task <- __getitem__ (_metadata self) "ag_task" ;;
  Ok {| ml := ml_task; ag := ag_task |}.

(** The six properties below have getters that can raise [AttributeError];
    each is given as its getter, [_fget], and as what reading the property
    yields.  The getters of the other properties fail with the [KeyError] of
    the record or the errors of [int(float(.))] only. *)
Definition location_fget (self : DatasetMetadata) : result Location :=
  loc <- __getitem__ (_metadata self) "location" ;;
  vs <- values loc ;;
  p <- unpack2 vs ;;
  Ok {| continent := fst p; country := snd p |}.

Definition location (self : DatasetMetadata) : result (Location + value) :=
  attribute self "location" (location_fget self).

Definition image_stats_fget (self : DatasetMetadata) : result ImageStats :=
  stats <- __getitem__ (_metadata self) "stats" ;;
  vs <- values stats ;;
  p <- unpack2 vs ;;
  Ok {| mean := fst p; std := snd p |}.

Definition image_stats (self : DatasetMetadata) : result (ImageStats + value) :=
  attribute self "image_stats" (image_stats_fget self).

(** [[int(float(i)) for i in ks]] over the keys of a JSON object. *)
Definition nums_of (ks : list string) : result (list Z) :=
  mapM (fun i => int_float (VStr i)) ks.

(** The loop of [num_to_class] over [mapping.keys()].  In the branch of a
    class type whose entry is a dict the source evaluates
    [class_type.keys()] on the key itself, a [str]. *)
Fixpoint num_to_class_loop (mapping : list (string * value)) (class_types : list string)
         (out : list (string * per_type (list (Z * value))))
  : result (list (string * per_type (list (Z * value)))) :=
  match class_types with
  | [] => Ok out
  | class_type :: rest =>
      entry <- subscript mapping class_type ;;
      if is_dict entry then
        Raise (no_attribute (VStr class_type) "keys")
      else
        num_to_class_loop mapping rest (sset class_type (Verbatim entry) out)
  end.

Definition num_to_class_fget (self : DatasetMetadata)
  : result (class_view (list (Z * value))) :=
  mapping <- __getitem__ (_metadata self) "classes" ;;
  if has_nested_dicts mapping then
    match mapping with
    | VDict d => out <- num_to_class_loop d (map fst d) [] ;; Ok (Nested out)
    | _ => Raise (no_attribute mapping "keys")
    end
  else
    ks <- keys mapping ;;
    nums <- nums_of ks ;;
    vs <- values mapping ;;
    Ok (Flat (dict_of Z.eqb (combine nums vs))).

Definition num_to_class (self : DatasetMetadata)
  : result (class_view (list (Z * value)) + value) :=
  attribute self "num_to_class" (num_to_class_fget self).

Fixpoint class_to_num_loop (mapping : list (string * value)) (class_types : list string)
         (out : list (string * per_type (list (value * Z))))
  : result (list (string * per_type (list (value * Z)))) :=
  match class_types with
  | [] => Ok out
  | class_type :: rest =>
      entry <- subscript mapping class_type ;;
      if is_dict entry then
        ks <- keys entry ;;
        nums <- nums_of ks ;;
        vs <- values entry ;;
        m <- dict_of_labels (combine vs nums) [] ;;
        class_to_num_loop mapping rest (sset class_type (Mapped m) out)
      else
        class_to_num_loop mapping rest (sset class_type (Verbatim entry) out)
  end.

Definition class_to_num_fget (self : DatasetMetadata)
  : result (class_view (list (value * Z))) :=
  mapping <- __getitem__ (_metadata self) "classes" ;;
  if has_nested_dicts mapping then
    match mapping with
    | VDict d => out <- class_to_num_loop d (map fst d) [] ;; Ok (Nested out)
    | _ => Raise (no_attribute mapping "keys")
    end
  else
    ks <- keys mapping ;;
    nums <- nums_of ks ;;
    vs <- values mapping ;;
    m <- dict_of_labels (combine vs nums) [] ;;
    Ok (Flat m).

Definition class_to_num (self : DatasetMetadata)
  : result (class_view (list (value * Z)) + value) :=
  attribute self "class_to_num" (class_to_num_fget self).

(** The dict comprehension of [classes] over [classes.items()]. *)
Fixpoint classes_loop (its : list (string * value)) (out : list (string * list value))
  : result (list (string * list value)) :=
  match its with
  | [] => Ok out
  | (k, d) :: rest =>
      vs <- values d ;;
      classes_loop rest (sset k vs out)
  end.

Definition classes_fget (self : DatasetMetadata) : result classes_view :=
  classes <- __getitem__ (_metadata self) "classes" ;;
  if has_nested_dicts classes then
    match classes with
    | VDict its => g <- classes_loop its [] ;; Ok (ClassLists g)
    | _ => Raise (no_attribute classes "items")
    end
  else
    vs <- values classes ;;
    Ok (ClassList vs).

Definition classes (self : DatasetMetadata) : result (classes_view + value) :=
  attribute self "classes" (classes_fget self).

(** [len(self.classes)]: the getter reads the property [classes], and so
    measures the entry of the record when the getter of [classes] has raised
    [AttributeError]. *)
Definition num_classes_fget (self : DatasetMetadata) : result nat :=
  c <- classes self ;;
  match c with
  | inl (ClassList l) => Ok (length l)
  | inl (ClassLists g) => Ok (length g)
  | inr v => len v
  end.

Definition num_classes (self : DatasetMetadata) : result (nat + value) :=
  attribute self "num_classes" (num_classes_fget self).

(** [x == ''] *)
Definition is_empty_str (v : value) : bool :=
  match v with VStr s => String.eqb s "" | _ => false end.

Definition license (self : DatasetMetadata) : result value :=
  l <- __getitem__ (_citation_meta self) "license" ;;
  if is_empty_str l then Ok VNone
  else __getitem__ (_citation_meta self) "license".

Definition citation (self : DatasetMetadata) : result value :=
  c <- __getitem__ (_citation_meta self) "citation" ;;
  if is_empty_str c then Ok VNone
  else __getitem__ (_citation_meta self) "citation".
End Registry.

(** The value of a decimal digit. *)
Definition digit_of (c : ascii) : option Z :=
  let n := Z.of_nat (nat_of_ascii c) in
  if ((48 <=? n) && (n <=? 57))%Z then Some (n - 48)%Z else None.

(** Digits up to the first ['.'], then digits only: the integer part read so
    far, or nothing when a character fits neither. *)
Fixpoint read_digits (s : string) (acc : Z) (seen frac : bool) : option Z :=
  match s with
  | EmptyString => if seen then Some acc else None
  | String c s' =>
      match digit_of c with
      | Some d => read_digits s' (if frac then acc else (10 * acc + d)%Z) true frac
      | None =>
          if Ascii.eqb c "." && negb frac then read_digits s' acc seen true
          else None
      end
  end.

Definition int_float_text (s : string) : option Z :=
  match s with
  | String "-" s' => option_map Z.opp (read_digits s' 0%Z false false)
  | String "+" s' => read_digits s' 0%Z false false
  | _ => read_digits s 0%Z false false
  end.

(** A coercion for the examples: [int(float(x))] on a number, and on a text
    made of an optional sign, digits and an optional fraction, the fraction
    being dropped.  It is Python's answer on such a text of at most fifteen
    significant digits; any other text is refused here. *)
Definition int_float_plain (v : value) : result Z :=
  match v with
  | VBool b => Ok (if b then 1 else 0)%Z
  | VInt n => Ok n
  | VFloat q => Ok (Z.quot (Qnum q) (Zpos (Qden q)))
  | VStr s =>
      match int_float_text s with
      | Some n => Ok n
      | None => Raise (ValueError ("could not convert string to float: '" ++ s ++ "'"))
      end
  | _ => Raise (TypeError (FloatArgument v))
  end.

(** The properties that read one entry of the record. *)
Definition data (self : DatasetMetadata) : _MetadataDict := _metadata self.

Definition sensor_modality (self : DatasetMetadata) : result value :=
  __getitem__ (_metadata self) "sensor_modality".

Definition image_format (self : DatasetMetadata) : result value :=
  __getitem__ (_metadata self) "input_data_format".

Definition annotation_format (self : DatasetMetadata) : result value :=
  __getitem__ (_metadata self) "annotation_format".

Definition docs (self : DatasetMetadata) : result value :=
  __getitem__ (_metadata self) "docs_url".

Definition external_image_sources (self : DatasetMetadata) : result value :=
  __getitem__ (_metadata self) "external_image_sources".

(** The name that [_load_source_info] starts from. *)
Definition given_name (arg : name_arg) : string :=
  match arg with
  | ByInfo m => name m
  | ByName s => s
  end.

(** The key under which [_load_source_info] finds a name: the name itself,
    else the name with underscores for hyphens, else none. *)
Definition resolve (source_info : list (string * list (string * value)))
           (name : string) : option string :=
  if smem name source_info then Some name
  else if smem (replace name "-" "_") source_info then Some (replace name "-" "_")
  else None.

(** The sentence of [_MetadataDict.__getitem__] for a missing entry. *)
Definition missing_metadata (dataset item : string) : exn :=
  KeyError ("The dataset '" ++ dataset ++ "' is missing metadata '"
            ++ item ++ "'. "
            ++ "Please bring this issue to the attention of the AgML team.").

(** The labels of one class type. *)
Definition labels_of (entry : value) : list value :=
  match entry with
  | VDict g => map snd g
  | _ => []
  end.

(** Sample tables in the shape of the two JSON files.  [apple_flower] is
    the record of the scenario of the specification; [plant_village] groups
    its classes by class type; [weed_survey] gives two indices one label;
    [rice_seedling] has no citation entry; [fruit-detection] and
    [fruit_detection] are two keys that differ by the hyphen only. *)
Definition sample_record (n_images : value) (classes : value) : list (string * value) :=
  [("n_images", n_images);
   ("ml_task", VStr "object_detection");
   ("ag_task", VStr "flower_counting");
   ("location", VDict [("continent", VStr "North America"); ("country", VStr "USA")]);
   ("stats", VDict [("mean", VList [VFloat (1 # 2); VFloat (1 # 2); VFloat (1 # 2)]);
                    ("std", VList [VFloat (1 # 5); VFloat (1 # 5); VFloat (1 # 5)])]);
   ("classes", classes)].

Definition sample_sources : list (string * list (string * value)) :=
  [("apple_flower", sample_record (VStr "3000") (VDict [("0", VStr "flower")]));
   ("plant_village",
     sample_record (VInt 5000)
       (VDict [("crop", VDict [("0", VStr "apple"); ("1", VStr "grape")]);
               ("disease", VDict [("0", VStr "healthy"); ("1", VStr "rust")])]));
   ("weed_survey",
     sample_record (VStr "120.0") (VDict [("0", VStr "weed"); ("1", VStr "weed")]));
   ("rice_seedling", sample_record (VInt 800) (VDict [("1", VStr "rice")]));
   ("fruit-detection", sample_record (VInt 10) (VDict [("1", VStr "fruit")]));
   ("fruit_detection", sample_record (VInt 20) (VDict [("1", VStr "fruit")]))].

Definition sample_citation (license citation : string) : list (string * value) :=
  [("license", VStr license); ("citation", VStr citation)].

Definition sample_citations : list (string * list (string * value)) :=
  [("apple_flower", sample_citation "US Public Domain" "");
   ("plant_village", sample_citation "" "");
   ("weed_survey", sample_citation "CC BY 4.0" "@misc{weeds}");
   ("fruit-detection", sample_citation "" "");
   ("fruit_detection", sample_citation "" "")].

(** The registry that construction yields for a name found in both tables. *)
Definition loaded (source_info citation_info : list (string * list (string * value)))
           (name : string) : DatasetMetadata :=
  {| _name := name;
     _metadata :=
       {| items := match sget name source_info with Some r => r | None => [] end;
          _dataset := name |};
     _citation_meta :=
       {| items := match sget name citation_info with Some c => c | None => [] end;
          _dataset := name |} |}.

(** A record that can be passed as keywords to [_MetadataDict]: it has no
    entry called [dataset] or [self]. *)
Definition keywords_ok (record : list (string * value)) : bool :=
  negb (smem "dataset" record) && negb (smem "self" record).

(** A name whose two records are found and can be passed as keywords. *)
Definition loadable (source_info citation_info : list (string * list (string * value)))
           (name : string) : bool :=
  match sget name source_info, sget name citation_info with
  | Some r, Some c => keywords_ok r && keywords_ok c
  | _, _ => false
  end.

(** [a] occurs in [b]. *)
Definition substring (a b : string) : Prop :=
  exists pre post, b = pre ++ a ++ post.

(** The two class mappings agree: every pair of [num_to_class] is found
    under its label in [class_to_num]. *)
Definition inverse_of (n2c : list (Z * value)) (c2n : list (value * Z)) : Prop :=
  forall i label, In (i, label) n2c -> dict_get key_eqb label c2n = Some i.

(** Labels no two of which are equal as dictionary keys. *)
Fixpoint distinct_labels (l : list value) : bool :=
  match l with
  | [] => true
  | a :: l' => negb (existsb (key_eqb a) l') && distinct_labels l'
  end.

(** The sample registries used below. *)
Definition apple_flower : DatasetMetadata := loaded sample_sources sample_citations "apple_flower".
Definition plant_village : DatasetMetadata := loaded sample_sources sample_citations "plant_village".
Definition weed_survey : DatasetMetadata := loaded sample_sources sample_citations "weed_survey".

(** Registries with two classes: [fruit_pair] with the keys 0 and 1,
    [collapsed_pair] with the keys 1 and 1.0, which are coerced to one
    index. *)
Definition registry_of (name : string) (classes : value) : DatasetMetadata :=
  {| _name := name;
     _metadata := {| items := sample_record (VInt 12) classes; _dataset := name |};
     _citation_meta := {| items := sample_citation "" ""; _dataset := name |} |}.

Definition fruit_classes : list (string * value) :=
  [("0", VStr "apple"); ("1", VStr "grape")].

Definition fruit_pair : DatasetMetadata := registry_of "fruit_pair" (VDict fruit_classes).

Definition collapsed_classes : list (string * value) :=
  [("1", VStr "apple"); ("1.0", VStr "grape")].

Definition collapsed_pair : DatasetMetadata :=
  registry_of "collapsed_pair" (VDict collapsed_classes).

(** A registry whose [location] entry is a string, not a mapping. *)
Definition misplaced : DatasetMetadata :=
  {| _name := "misplaced";
     _metadata := {| items := [("location", VStr "USA"); ("stats", VStr "unknown")];
                     _dataset := "misplaced" |};
     _citation_meta := {| items := sample_citation "" ""; _dataset := "misplaced" |} |}.

(** A registry whose [classes] has a mapping for one class type and a plain
    entry for another. *)
Definition mixed_classes : list (string * value) :=
  [("crop", VDict [("0", VStr "apple"); ("1", VStr "grape")]);
   ("note", VStr "unlabelled")].

Definition mixed_registry : DatasetMetadata :=
  {| _name := "mixed_survey";
     _metadata := {| items := sample_record (VInt 12) (VDict mixed_classes);
                     _dataset := "mixed_survey" |};
     _citation_meta := {| items := sample_citation "" ""; _dataset := "mixed_survey" |} |}.

End Metadata.

(** * Properties *)

(** ** Dictionaries with string keys *)

Section DictFacts.
Context {V : Type}.
Implicit Types (d : list (string * V)) (k : string) (v : V).

Lemma smem_In d k : smem k d = true <-> In k (map fst d).
Proof.
  unfold smem, dict_mem.
  induction d as [|[k' v'] d IH]; simpl.
  - split; [discriminate | tauto].
  - destruct (String.eqb_spec k' k) as [->|Hne].
    + split; auto.
    + rewrite IH. split; [auto | intros [H|H]; [congruence | exact H]].
Qed.

Lemma smem_false_not_In d k : smem k d = false <-> ~ In k (map fst d).
Proof.
  rewrite <- smem_In. destruct (smem k d); split; congruence.
Qed.

Lemma sset_fresh d k v : smem k d = false -> sset k v d = (d ++ [(k, v)])%list.
Proof.
  unfold smem, dict_mem, sset.
  induction d as [|[k' v'] d IH]; simpl; intros H; [reflexivity|].
  destruct (String.eqb k' k); [discriminate|].
  f_equal. apply IH, H.
Qed.

Lemma sset_keys d k v : smem k d = true -> map fst (sset k v d) = map fst d.
Proof.
  unfold smem, dict_mem, sset.
  induction d as [|[k' v'] d IH]; simpl; intros H; [discriminate|].
  destruct (String.eqb k' k); simpl; [reflexivity|].
  f_equal. apply IH, H.
Qed.

Lemma sget_sset_same d k v : sget k (sset k v d) = Some v.
Proof.
  unfold sget, sset.
  induction d as [|[k' v'] d IH]; simpl.
  - rewrite String.eqb_refl. reflexivity.
  - destruct (String.eqb k' k) eqn:E; simpl; rewrite E; auto.
Qed.

Lemma sget_sset_other d k k' v : k <> k' -> sget k' (sset k v d) = sget k' d.
Proof.
  unfold sget, sset. intros Hne.
  induction d as [|[k0 v0] d IH]; simpl.
  - destruct (String.eqb_spec k k'); [contradiction | reflexivity].
  - destruct (String.eqb_spec k0 k) as [->|H0]; simpl.
    + destruct (String.eqb_spec k k'); [contradiction | reflexivity].
    + destruct (String.eqb k0 k'); auto.
Qed.

Lemma smem_app d1 d2 k : smem k (d1 ++ d2)%list = smem k d1 || smem k d2.
Proof.
  unfold smem, dict_mem.
  induction d1 as [|[k' v'] d1 IH]; simpl; [reflexivity|].
  destruct (String.eqb k' k); auto.
Qed.

Lemma sget_map_fresh (f : string -> V) (l : list string) k :
  In k l -> sget k (map (fun x => (x, f x)) l) = Some (f k).
Proof.
  unfold sget.
  induction l as [|x l IH]; simpl; [tauto|].
  intros [->|H].
  - rewrite String.eqb_refl. reflexivity.
  - destruct (String.eqb_spec x k) as [->|]; auto.
Qed.

Lemma sget_app_l d1 d2 k v : sget k d1 = Some v -> sget k (d1 ++ d2)%list = Some v.
Proof.
  unfold sget.
  induction d1 as [|[k' v'] d1 IH]; simpl; [discriminate|].
  destruct (String.eqb k' k); auto.
Qed.
End DictFacts.

(** ** Validated parameter stores *)

Module OptionsProofs.
Import Options.

Lemma well_formed_check (c : dataclass) :
  nodup string_dec (seal :: fields c) = seal :: fields c -> well_formed c.
Proof.
  intros H.
  assert (N : NoDup (seal :: fields c)) by (rewrite <- H; apply NoDup_nodup).
  inversion N; subst. split; assumption.
Qed.

Lemma CanopyParameters_wf : well_formed CanopyParameters.
Proof. apply well_formed_check. vm_compute. reflexivity. Qed.

Lemma CameraParameters_wf : well_formed CameraParameters.
Proof. apply well_formed_check. vm_compute. reflexivity. Qed.

Lemma LiDARParameters_wf : well_formed LiDARParameters.
Proof. apply well_formed_check. vm_compute. reflexivity. Qed.

Lemma schema_wf (w : view) : well_formed (schema w).
Proof.
  destruct w; [apply CanopyParameters_wf | apply CameraParameters_wf | apply LiDARParameters_wf].
Qed.

(** While the constructor copies the fields the seal is absent, so every
    assignment goes to [object.__setattr__] and appends. *)
Lemma init_fields_appends (c : dataclass) (kwargs : list (string * value)) :
  smem seal (__annotations__ c) = false ->
  forall (fs : list string) (d : list (string * value)),
    NoDup fs ->
    ~ In seal fs ->
    (forall f, In f fs -> smem f d = false) ->
    smem seal d = false ->
    init_fields {| cls := c; __dict__ := d |} fs kwargs
    = Ok {| cls := c;
            __dict__ := (d ++ map (fun f => (f, kwarg kwargs f)) fs)%list |}.
Proof.
  intros Hseal fs.
  induction fs as [|f fs IH]; intros d Hnd Hns Hfresh Hd; simpl.
  - rewrite app_nil_r. reflexivity.
  - inversion Hnd as [|? ? Hf Hnd']; subst.
    unfold __setattr__, hasattr; simpl.
    fold seal.
    rewrite (Hfresh f (or_introl eq_refl)), Hd, Hseal; simpl.
    unfold object_setattr; simpl.
    rewrite sset_fresh by (apply Hfresh; left; reflexivity).
    rewrite IH.
    + rewrite <- app_assoc. reflexivity.
    + exact Hnd'.
    + intros H; apply Hns; right; exact H.
    + intros g Hg. rewrite smem_app, (Hfresh g (or_intror Hg)). simpl.
      unfold smem, dict_mem; simpl.
      destruct (String.eqb_spec f g) as [->|]; [contradiction | reflexivity].
    + rewrite smem_app, Hd. simpl.
      unfold smem, dict_mem; simpl.
      destruct (String.eqb_spec f seal) as [E|]; [|reflexivity].
      exfalso. apply Hns. left. exact E.
Qed.


Lemma post_init_seals (c : dataclass) (d : list (string * value)) :
  smem seal d = false ->
  smem seal (__annotations__ c) = false ->
  __post_init__ {| cls := c; __dict__ := d |}
  = Ok {| cls := c; __dict__ := (d ++ [(seal, VBool true)])%list |}.
Proof.
  intros Hd Hc.
  unfold __post_init__, __setattr__, hasattr. fold seal.
  cbn [cls __dict__]. rewrite Hd, Hc. cbn [negb orb].
  unfold object_setattr. cbn [cls __dict__].
  rewrite sset_fresh by exact Hd. reflexivity.
Qed.

Lemma fields_not_in_built_prefix (c : dataclass) (kwargs : list (string * value)) :
  ~ In seal (fields c) ->
  smem seal (map (fun f => (f, kwarg kwargs f)) (fields c)) = false.
Proof.
  intros H. apply smem_false_not_In. rewrite map_map. cbn [fst].
  rewrite map_id. exact H.
Qed.

Lemma init_body (c : dataclass) (kwargs : list (string * value)) :
  well_formed c ->
  (self <- init_fields {| cls := c; __dict__ := [] |} (fields c) kwargs ;;
   __post_init__ self) = Ok (built c kwargs).
Proof.
  intros [Hnd Hseal].
  assert (Hc : smem seal (__annotations__ c) = false)
    by (apply smem_false_not_In, Hseal).
  rewrite (init_fields_appends c kwargs Hc (fields c) []); auto.
  cbn [bind app].
  apply post_init_seals; [apply fields_not_in_built_prefix, Hseal | exact Hc].
Qed.

Lemma init_built (c : dataclass) (kwargs : list (string * value)) (s : instance) :
  well_formed c -> __init__ c kwargs = Ok s -> s = built c kwargs.
Proof.
  intros Hwf H. unfold __init__ in H.
  destruct (find _ kwargs) as [[k v]|]; [discriminate|].
  fold (fields c) in H. rewrite (init_body c kwargs Hwf) in H.
  injection H as <-. reflexivity.
Qed.

Lemma init_succeeds (c : dataclass) (kwargs : list (string * value)) :
  well_formed c ->
  (forall k, In k (map fst kwargs) -> In k (fields c)) ->
  __init__ c kwargs = Ok (built c kwargs).
Proof.
  intros Hwf Hk. unfold __init__.
  destruct (find _ kwargs) as [[k v]|] eqn:F.
  - exfalso. apply find_some in F. destruct F as [Hin Hneg]. cbn [fst] in Hneg.
    apply negb_true_iff, smem_false_not_In in Hneg.
    apply Hneg, Hk, in_map_iff. exists (k, v). auto.
  - fold (fields c). apply init_body, Hwf.
Qed.

Lemma built_sealed (c : dataclass) (kwargs : list (string * value)) :
  sealed c (built c kwargs).
Proof.
  split; [reflexivity|]. cbn [built __dict__].
  rewrite map_app, map_map. cbn [fst map]. rewrite map_id. reflexivity.
Qed.

(** *** Assignment on a sealed store *)

Section Sealed.
Variables (c : dataclass) (s : instance).
Hypothesis Hwf : well_formed c.
Hypothesis Hs : sealed c s.

Lemma sealed_mem (key : string) :
  smem key (__dict__ s) = true <-> In key (fields c) \/ key = seal.
Proof.
  destruct Hs as [_ Hk]. rewrite smem_In, Hk, in_app_iff. cbn [In].
  intuition.
Qed.

Lemma sealed_hasattr_seal : hasattr s seal = true.
Proof.
  unfold hasattr. apply orb_true_iff. left. apply sealed_mem. auto.
Qed.

(** A name outside the schema is refused. *)
Lemma setattr_unknown (key : string) (v : value) :
  ~ In key (fields c) -> key <> seal ->
  __setattr__ s key v
  = Raise (AttributeError ("Cannot assign new attributes '" ++ key ++ "' "
                           ++ "to class " ++ class_name c ++ ".")).
Proof.
  intros Hf Hk. unfold __setattr__. fold seal.
  replace (smem key (__dict__ s)) with false.
  - rewrite sealed_hasattr_seal. cbn [negb]. destruct Hs as [-> _]. reflexivity.
  - symmetry. destruct (smem key (__dict__ s)) eqn:E; [|reflexivity].
    apply sealed_mem in E. tauto.
Qed.

(** On a field the outcome is decided by the instance check alone. *)
Lemma setattr_field (key : string) (a : annot) (v : value) :
  sget key (__annotations__ c) = Some a ->
  __setattr__ s key v
  = (ok <- isinstance v a ;;
     if negb ok then Raise (TypeError (Mismatch a key v))
     else Ok (object_setattr s key v)).
Proof.
  intros Ha. unfold __setattr__.
  replace (smem key (__dict__ s)) with true.
  - cbn [negb]. destruct Hs as [-> _]. rewrite Ha. reflexivity.
  - symmetry. apply sealed_mem. left. apply smem_In.
    unfold smem, dict_mem. fold (@sget annot). rewrite Ha. reflexivity.
Qed.

(** The seal itself is in the instance dictionary and has no annotation. *)
Lemma setattr_seal (v : value) :
  __setattr__ s seal v = Raise (KeyError seal).
Proof.
  unfold __setattr__.
  replace (smem seal (__dict__ s)) with true
    by (symmetry; apply sealed_mem; auto).
  cbn [negb]. destruct Hs as [-> _].
  destruct (sget seal (__annotations__ c)) eqn:E; [|reflexivity].
  exfalso. apply (proj2 Hwf). apply smem_In.
  unfold smem, dict_mem. fold (@sget annot). rewrite E. reflexivity.
Qed.

Lemma field_annotated (key : string) :
  In key (fields c) -> exists a, sget key (__annotations__ c) = Some a.
Proof.
  intros H. apply smem_In in H. unfold smem, dict_mem in H.
  fold (@sget annot) in H.
  destruct (sget key (__annotations__ c)) as [a|]; [eauto | discriminate].
Qed.

(** Every successful assignment went through a passed instance check. *)
Lemma setattr_ok_inv (key : string) (v : value) (s' : instance) :
  __setattr__ s key v = Ok s' ->
  exists a, sget key (__annotations__ c) = Some a
            /\ isinstance v a = Ok true
            /\ s' = object_setattr s key v.
Proof.
  intros H.
  destruct (smem key (__dict__ s)) eqn:E.
  - apply sealed_mem in E. destruct E as [Hf | ->].
    + destruct (field_annotated key Hf) as [a Ha].
      rewrite (setattr_field key a v Ha) in H.
      exists a. split; [exact Ha|].
      destruct (isinstance v a) as [[|]|e]; cbn in H; try discriminate.
      injection H as <-. auto.
    + rewrite setattr_seal in H. discriminate.
  - unfold __setattr__ in H. rewrite E in H. cbn [negb] in H.
    fold seal in H. rewrite sealed_hasattr_seal in H. discriminate.
Qed.

Lemma setattr_keeps_sealed (key : string) (v : value) (s' : instance) :
  __setattr__ s key v = Ok s' -> sealed c s'.
Proof.
  intros H. destruct (setattr_ok_inv key v s' H) as (a & Ha & _ & ->).
  destruct Hs as [Hc Hk]. split; [exact Hc|].
  cbn [object_setattr __dict__]. rewrite sset_keys; [exact Hk|].
  apply sealed_mem. left. apply smem_In.
  unfold smem, dict_mem. fold (@sget annot). rewrite Ha. reflexivity.
Qed.
End Sealed.

Lemma getattr_object_setattr (s : instance) (key : string) (v : value) :
  getattr (object_setattr s key v) key = Ok v.
Proof.
  unfold getattr, object_setattr. cbn [__dict__]. rewrite sget_sset_same. reflexivity.
Qed.

Lemma getattr_object_setattr_other (s : instance) (key key' : string) (v : value) :
  key <> key' -> getattr (object_setattr s key v) key' = getattr s key'.
Proof.
  intros H. unfold getattr, object_setattr. cbn [__dict__ cls].
  rewrite sget_sset_other by exact H. reflexivity.
Qed.

Lemma assigns_sealed (c : dataclass) (ms : list (string * value)) :
  well_formed c -> forall s, sealed c s -> sealed c (assigns s ms).
Proof.
  intros Hwf. induction ms as [|[key v] ms IH]; intros s Hs; cbn [assigns]; [exact Hs|].
  destruct (__setattr__ s key v) as [s'|e] eqn:E.
  - apply IH. eapply setattr_keeps_sealed; eauto.
  - apply IH, Hs.
Qed.

(** No annotation of the model admits [None]. *)
Lemma isinstance_None (a : annot) : isinstance VNone a <> Ok true.
Proof. destruct a; cbn; discriminate. Qed.

Lemma getattr_built (c : dataclass) (kwargs : list (string * value)) (key : string) :
  In key (fields c) -> getattr (built c kwargs) key = Ok (kwarg kwargs key).
Proof.
  intros H. unfold getattr, built. cbn [__dict__].
  erewrite sget_app_l; [reflexivity|].
  apply (sget_map_fresh (kwarg kwargs)), H.
Qed.

(** What the checked fields (number, string, path) do on a sealed store: a
    value of the declared type is stored and read back, any other value is
    refused with the mismatch error, and a name outside the schema is refused
    whatever the value. *)
Lemma setattr_checked_field (c : dataclass) (s : instance) (key : string)
      (a : annot) (v : value) :
  well_formed c -> sealed c s ->
  sget key (__annotations__ c) = Some a ->
  (forall b, a <> ListOf b) ->
  (isinstance v a = Ok true /\
   exists s', __setattr__ s key v = Ok s' /\ getattr s' key = Ok v /\ sealed c s')
  \/ (isinstance v a = Ok false /\
      __setattr__ s key v = Raise (TypeError (Mismatch a key v))).
Proof.
  intros Hwf Hs Ha Hl.
  pose proof (setattr_field c s Hs key a v Ha) as E.
  destruct a; cbn [isinstance bind] in E |- *;
    try (exfalso; eapply Hl; reflexivity);
    match type of E with
    | _ = if negb ?b then _ else _ =>
        destruct b; cbn [negb] in E; [left | right]; split; try reflexivity;
        try exact E;
        (eexists; split; [exact E|]; split;
         [apply getattr_object_setattr
         | eapply setattr_keeps_sealed; eauto])
    end.
Qed.

(** A field annotated with a subscripted generic accepts no value at all. *)
Lemma setattr_generic_field (c : dataclass) (s : instance) (key : string)
      (b : annot) (v : value) :
  sealed c s ->
  sget key (__annotations__ c) = Some (ListOf b) ->
  __setattr__ s key v = Raise (TypeError SubscriptedGeneric).
Proof.
  intros Hs Ha. rewrite (setattr_field c s Hs key (ListOf b) v Ha). reflexivity.
Qed.

(** *** HeliosOptions *)

Lemma initialize_canopy_inv (cfg : helios_config) (arg : option string)
      (o : HeliosOptions) :
  _initialize_canopy cfg arg = Ok o ->
  arg = Some (_canopy o)
  /\ forall w, get_view o w = built (schema w) (defaults_of cfg (_canopy o) w).
Proof.
  unfold _initialize_canopy. intros H.
  destruct arg as [ct|]; [|discriminate].
  destruct (negb _); [discriminate|].
  destruct (sget ct (canopy_parameters cfg)) as [defaults|] eqn:D; [|discriminate].
  destruct (__init__ CanopyParameters defaults) as [cp|] eqn:E1; [|discriminate].
  destruct (__init__ CameraParameters _) as [cam|] eqn:E2; [|discriminate].
  destruct (__init__ LiDARParameters _) as [lid|] eqn:E3; [|discriminate].
  cbn [bind] in H. injection H as <-. cbn [_canopy].
  split; [reflexivity|].
  intros []; cbn [get_view _canopy_parameters _camera_parameters _lidar_parameters
                  schema defaults_of].
  - rewrite D. apply init_built; [apply CanopyParameters_wf | exact E1].
  - apply init_built; [apply CameraParameters_wf | exact E2].
  - apply init_built; [apply LiDARParameters_wf | exact E3].
Qed.

Lemma assign_canopy (o o' : HeliosOptions) (w : view) (key : string) (v : value) :
  assign o w key v = Ok o' -> _canopy o' = _canopy o.
Proof.
  unfold assign. destruct (__setattr__ _ key v); cbn [bind]; [|discriminate].
  intros H. injection H as <-. destruct w; reflexivity.
Qed.

Lemma mutate_canopy (ms : list (view * string * value)) :
  forall o, _canopy (mutate o ms) = _canopy o.
Proof.
  induction ms as [|[[w key] v] ms IH]; intros o; cbn [mutate]; [reflexivity|].
  destruct (assign o w key v) as [o'|] eqn:E.
  - rewrite IH. eapply assign_canopy, E.
  - apply IH.
Qed.

(** C4: after any sequence of field assignments on the three sub-stores of a
    constructed bundle, [reset()] returns the bundle to the state its
    construction produced, and in that state every field of the canopy,
    camera and LiDAR stores reads the default of the configuration table
    ([None] for a field the table leaves out). *)
Theorem C4_reset_restores_defaults (cfg : helios_config) (canopy_type : option string)
        (o : HeliosOptions) (ms : list (view * string * value)) :
  HeliosOptions__init__ cfg canopy_type = Ok o ->
  reset cfg (mutate o ms) = Ok o
  /\ forall w key, In key (fields (schema w)) ->
       getattr (get_view o w) key = Ok (kwarg (defaults_of cfg (_canopy o) w) key).
Proof.
  unfold HeliosOptions__init__, reset. intros H.
  destruct (initialize_canopy_inv cfg canopy_type o H) as [Harg Hviews].
  split.
  - rewrite mutate_canopy, <- Harg. exact H.
  - intros w key Hk. rewrite Hviews. apply getattr_built, Hk.
Qed.

Lemma C4_witness :
  HeliosOptions__init__ sample_config (Some "VSPGrapevine") = Ok sample_options
  /\ (reset sample_config
        (mutate sample_options [(canopy, "plant_spacing", VFloat (2 # 1));
                                (canopy, "plant_spacing", VStr "tall");
                                (lidar, "ASCII_format", VStr "x y z r")])
      = Ok sample_options
      /\ forall w key, In key (fields (schema w)) ->
           getattr (get_view sample_options w) key
           = Ok (kwarg (defaults_of sample_config (_canopy sample_options) w) key)).
Proof.
  split; [vm_compute; reflexivity|].
  apply (C4_reset_restores_defaults sample_config (Some "VSPGrapevine")).
  vm_compute; reflexivity.
Defined.

(** The scenario of the specification on the sample table: the default
    spacing is 1.5, an assignment of 2.0 is read back, and [reset()] brings
    1.5 back. *)
Example plant_spacing_scenario :
  getattr (get_view sample_options canopy) "plant_spacing" = Ok (VFloat (15 # 10))
  /\ (o <- assign sample_options canopy "plant_spacing" (VFloat (2 # 1)) ;;
      getattr (get_view o canopy) "plant_spacing") = Ok (VFloat (2 # 1))
  /\ (o <- assign sample_options canopy "plant_spacing" (VFloat (2 # 1)) ;;
      o' <- reset sample_config o ;;
      getattr (get_view o' canopy) "plant_spacing") = Ok (VFloat (15 # 10))
  /\ raises (assign sample_options canopy "plant_spacing" (VStr "tall")) CTypeError
  /\ raises (assign sample_options canopy "new_field" (VInt 1)) CAttributeError.
Proof.
  repeat split; try (vm_compute; reflexivity);
    eexists; split; vm_compute; reflexivity.
Qed.

(** *** Assigning [None] *)

(** C10: on a store of any of the three schemas, once constructed and after
    any sequence of assignments, assigning [None] to a field raises
    [TypeError], whatever the declared type of the field: the mismatch error
    of [__setattr__] on a number, string or path field, the error of the
    instance check on a list field.  Every assignment that succeeds stores a
    value other than [None], and a field that the constructor was given no
    keyword for reads [None]. *)
Theorem C10_none_not_assignable (w : view) (kwargs : list (string * value))
        (s0 : instance) (ms : list (string * value)) :
  __init__ (schema w) kwargs = Ok s0 ->
  (forall key, In key (fields (schema w)) ->
     exists a,
       sget key (__annotations__ (schema w)) = Some a
       /\ __setattr__ (assigns s0 ms) key VNone
          = Raise (TypeError match a with
                             | ListOf _ => SubscriptedGeneric
                             | _ => Mismatch a key VNone
                             end))
  /\ (forall key v s', __setattr__ (assigns s0 ms) key v = Ok s' -> v <> VNone)
  /\ (forall key, In key (fields (schema w)) -> sget key kwargs = None ->
        getattr s0 key = Ok VNone).
Proof.
  intros H.
  pose proof (schema_wf w) as Hwf.
  apply (init_built _ _ _ Hwf) in H. subst s0.
  assert (Hs : sealed (schema w) (assigns (built (schema w) kwargs) ms))
    by (apply assigns_sealed; [exact Hwf | apply built_sealed]).
  split; [|split].
  - intros key Hk.
    destruct (field_annotated (schema w) key Hk) as [a Ha].
    exists a. split; [exact Ha|].
    rewrite (setattr_field _ _ Hs key a VNone Ha).
    destruct a; reflexivity.
  - intros key v s' E ->.
    destruct (setattr_ok_inv _ _ Hwf Hs key VNone s' E) as (a & _ & Hi & _).
    exact (isinstance_None a Hi).
  - intros key Hk Hnone. rewrite getattr_built by exact Hk.
    unfold kwarg. rewrite Hnone. reflexivity.
Qed.

Lemma C10_witness :
  __init__ (schema canopy) (defaults_of sample_config "VSPGrapevine" canopy)
  = Ok sample_canopy_store
  /\ forall key v s',
       __setattr__ (assigns sample_canopy_store [("plant_spacing", VFloat (2 # 1))])
                   key v = Ok s' ->
       v <> VNone.
Proof.
  split; [vm_compute; reflexivity|].
  apply (C10_none_not_assignable canopy
           (defaults_of sample_config "VSPGrapevine" canopy)
           sample_canopy_store
           [("plant_spacing", VFloat (2 # 1))]).
  vm_compute; reflexivity.
Defined.

Example none_on_sample_store :
  __setattr__ sample_canopy_store "plant_spacing" VNone
  = Raise (TypeError (Mismatch Number "plant_spacing" VNone))
  /\ __setattr__ sample_canopy_store "plant_count" VNone
     = Raise (TypeError SubscriptedGeneric)
  /\ getattr sample_canopy_store "leaf_length" = Ok VNone.
Proof. repeat split; vm_compute; reflexivity. Qed.

(** *** Fields annotated with a list type *)

(** C1, on a list-typed field: on the store built from the sample defaults,
    assigning a list of numbers to [leaf_subdivisions], declared
    [List[Number]], raises the [TypeError] of the instance check instead of
    storing the value; so does assigning back the very list the store was
    built with.  A value of the declared type is stored and read back on a
    number field, and a name outside the schema is refused. *)
Theorem C1_list_field_assignment_raises :
  __init__ CanopyParameters (defaults_of sample_config "VSPGrapevine" canopy)
  = Ok sample_canopy_store
  /\ sget "leaf_subdivisions" (__annotations__ CanopyParameters) = Some (ListOf Number)
  /\ __setattr__ sample_canopy_store "leaf_subdivisions" (VList [VInt 2; VInt 2])
     = Raise (TypeError SubscriptedGeneric)
  /\ getattr sample_canopy_store "leaf_subdivisions" = Ok (VList [VInt 1; VInt 1])
  /\ __setattr__ sample_canopy_store "leaf_subdivisions" (VList [VInt 1; VInt 1])
     = Raise (TypeError SubscriptedGeneric)
  /\ (s' <- __setattr__ sample_canopy_store "plant_spacing" (VFloat (2 # 1)) ;;
      getattr s' "plant_spacing") = Ok (VFloat (2 # 1))
  /\ raises (__setattr__ sample_canopy_store "new_field" (VInt 1)) CAttributeError.
Proof.
  repeat split; try (vm_compute; reflexivity).
  eexists; split; vm_compute; reflexivity.
Qed.

(** The seal attribute is no field of any schema, and assigning to it on a
    constructed store raises a [KeyError] carrying the bare name. *)
Lemma seal_assignment_raises_KeyError (w : view) (kwargs : list (string * value))
      (s : instance) (v : value) :
  __init__ (schema w) kwargs = Ok s ->
  ~ In seal (fields (schema w))
  /\ __setattr__ s seal v = Raise (KeyError seal).
Proof.
  intros H. pose proof (schema_wf w) as Hwf.
  apply (init_built _ _ _ Hwf) in H. subst s.
  split; [exact (proj2 Hwf)|].
  apply (setattr_seal (schema w)); [exact Hwf | apply built_sealed].
Qed.

End OptionsProofs.

(** ** Metadata registry *)

Module MetadataProofs.
Import Metadata.

(** [_MetadataDict.__init__] succeeds exactly on a record without an entry
    called [dataset] or [self], and then keeps the record as it is. *)
Lemma MetadataDict_init_cases (kwargs : list (string * value)) (dataset : string) :
  (keywords_ok kwargs = true
   /\ _MetadataDict__init__ kwargs dataset = Ok {| items := kwargs; _dataset := dataset |})
  \/ (keywords_ok kwargs = false
      /\ exists k, (k = "dataset" \/ k = "self")
                   /\ _MetadataDict__init__ kwargs dataset
                      = Raise (TypeError (MultipleValues k))).
Proof.
  unfold keywords_ok, _MetadataDict__init__.
  destruct (smem "dataset" kwargs); cbn [negb andb]; [right; eauto|].
  destruct (smem "self" kwargs); cbn [negb]; [right; eauto | left; auto].
Qed.

Section Construction.
Variables source_info citation_info : list (string * list (string * value)).

(** A name found in both tables, with records that can be passed as
    keywords, is stored as found. *)
Lemma store_records_loadable (name : string) :
  loadable source_info citation_info name = true ->
  store_records source_info citation_info name
  = Ok (loaded source_info citation_info name).
Proof.
  unfold loadable, store_records, loaded, subscript.
  destruct (sget name source_info) as [r|]; [|discriminate].
  destruct (sget name citation_info) as [c|]; [|discriminate].
  intros H. apply andb_true_iff in H. destruct H as [Hr Hc]. cbn [bind].
  destruct (MetadataDict_init_cases r name) as [(_ & ->)|(E & _)]; [|congruence].
  cbn [bind].
  destruct (MetadataDict_init_cases c name) as [(_ & ->)|(E & _)]; [|congruence].
  reflexivity.
Qed.

(** Whatever is stored was found in both tables under the stored name. *)
Lemma store_records_inv (name : string) (r : DatasetMetadata) :
  store_records source_info citation_info name = Ok r ->
  _name r = name
  /\ sget name source_info = Some (items (_metadata r))
  /\ sget name citation_info = Some (items (_citation_meta r)).
Proof.
  unfold store_records, subscript.
  destruct (sget name source_info) as [rec|]; [|discriminate].
  cbn [bind].
  destruct (MetadataDict_init_cases rec name) as [(_ & ->)|(_ & k & _ & ->)];
    [|discriminate].
  cbn [bind]. destruct (sget name citation_info) as [c|]; [|discriminate].
  cbn [bind].
  destruct (MetadataDict_init_cases c name) as [(_ & ->)|(_ & k & _ & ->)];
    [|discriminate].
  cbn [bind]. intros H. injection H as <-. auto.
Qed.

Lemma construct_known (name : string) :
  smem name source_info = true ->
  DatasetMetadata__init__ source_info citation_info (ByName name) = ([], store_records source_info citation_info name).
Proof.
  intros H. unfold DatasetMetadata__init__, _load_source_info.
  rewrite H. reflexivity.
Qed.

Lemma construct_normalized (name : string) :
  smem name source_info = false ->
  smem (replace name "-" "_") source_info = true ->
  DatasetMetadata__init__ source_info citation_info (ByName name)
  = (["Interpreted dataset '" ++ name ++ "' as '" ++ replace name "-" "_" ++ ".'"],
     store_records source_info citation_info (replace name "-" "_")).
Proof.
  intros H1 H2. unfold DatasetMetadata__init__, _load_source_info.
  rewrite H1, H2. reflexivity.
Qed.

Lemma construct_unknown (name : string) :
  smem name source_info = false ->
  smem (replace name "-" "_") source_info = false ->
  DatasetMetadata__init__ source_info citation_info (ByName name)
  = ([], Raise (ValueError
                  (maybe_you_meant name
                     ("Received invalid public source: '" ++ name ++ "'.")
                     (map fst source_info)))).
Proof.
  intros H1 H2. unfold DatasetMetadata__init__, _load_source_info.
  rewrite H1, H2. reflexivity.
Qed.

(** C5: for a name that is not itself a key of the source table and whose
    underscored form is, construction logs the normalization notice and
    then has the outcome of construction from the underscored name, which
    logs nothing; it succeeds when the underscored name is a key of both
    tables with records that can be passed as keywords (no entry called
    dataset or self), and two registries so obtained are equal. *)
Theorem C5_hyphenated_name_resolves (d : string) :
  smem d source_info = false ->
  smem (replace d "-" "_") source_info = true ->
  fst (DatasetMetadata__init__ source_info citation_info (ByName d))
  = ["Interpreted dataset '" ++ d ++ "' as '" ++ replace d "-" "_" ++ ".'"]
  /\ fst (DatasetMetadata__init__ source_info citation_info (ByName (replace d "-" "_"))) = []
  /\ snd (DatasetMetadata__init__ source_info citation_info (ByName d)) = snd (DatasetMetadata__init__ source_info citation_info (ByName (replace d "-" "_")))
  /\ (loadable source_info citation_info (replace d "-" "_") = true ->
      exists r, snd (DatasetMetadata__init__ source_info citation_info (ByName d)) = Ok r /\ name r = replace d "-" "_")
  /\ (forall r1 r2,
        snd (DatasetMetadata__init__ source_info citation_info (ByName d)) = Ok r1 ->
        snd (DatasetMetadata__init__ source_info citation_info (ByName (replace d "-" "_"))) = Ok r2 ->
        __eq__ r1 (OInfo r2) = true).
Proof.
  intros H1 H2.
  rewrite (construct_normalized d H1 H2), (construct_known _ H2). cbn [fst snd].
  repeat split.
  - intros L. rewrite (store_records_loadable _ L). eexists; split; reflexivity.
  - intros r1 r2 E1 E2. rewrite E1 in E2. injection E2 as <-.
    cbn [__eq__]. apply String.eqb_refl.
Qed.

(** C7: a registry is only ever produced for a name that is a key of the
    citation table, and its citation table is then the record found there,
    unchanged; for a name of the source table that the citation table
    lacks, construction raises. *)
Theorem C7_citation_record_required :
  (forall arg r,
      snd ((DatasetMetadata__init__ source_info citation_info) arg) = Ok r ->
      sget (name r) citation_info = Some (items (_citation_meta r)))
  /\ (forall d,
        smem d source_info = true -> smem d citation_info = false ->
        exists e, snd (DatasetMetadata__init__ source_info citation_info (ByName d)) = Raise e).
Proof.
  split.
  - intros arg r. unfold DatasetMetadata__init__, _load_source_info.
    destruct (negb (smem _ source_info)); [destruct (negb (smem _ source_info))|];
      cbn [snd]; try discriminate;
      intros H; apply store_records_inv in H; destruct H as (Hn & _ & Hc);
      unfold name; rewrite Hn; exact Hc.
  - intros d Hs Hc. rewrite (construct_known d Hs). cbn [snd].
    destruct (store_records source_info citation_info d) as [r|e] eqn:E; [|eauto].
    apply store_records_inv in E. destruct E as (_ & _ & E).
    unfold smem, dict_mem in Hc. fold (@sget (list (string * value))) in Hc.
    rewrite E in Hc. discriminate.
Qed.
End Construction.

(** *** Suggestions in the invalid-source message *)

Lemma append_assoc (a b c : string) : (a ++ b) ++ c = a ++ (b ++ c).
Proof. induction a as [|x a IH]; cbn; [reflexivity | rewrite IH; reflexivity]. Qed.

Lemma append_nil_r (a : string) : a ++ "" = a.
Proof. induction a as [|x a IH]; cbn; [reflexivity | rewrite IH; reflexivity]. Qed.

Lemma substring_refl (a : string) : substring a a.
Proof. exists "", "". rewrite append_nil_r. reflexivity. Qed.

Lemma substring_middle (pre a post : string) : substring a (pre ++ a ++ post).
Proof. exists pre, post. reflexivity. Qed.

Lemma substring_append_r (a b c : string) : substring a b -> substring a (c ++ b).
Proof.
  intros (pre & post & ->). exists (c ++ pre), post.
  symmetry. apply append_assoc.
Qed.

Lemma substring_append_l (a b c : string) : substring a b -> substring a (b ++ c).
Proof.
  intros (pre & post & ->). exists pre, (post ++ c).
  rewrite !append_assoc. reflexivity.
Qed.

Lemma substring_concat_quoted (sep k : string) (l : list string) :
  In k l -> substring k (String.concat sep (map quote l)).
Proof.
  induction l as [|x l IH]; [intros []|].
  intros H. cbn [map String.concat].
  destruct l as [|y l].
  - destruct H as [->|[]]. apply substring_middle.
  - cbn [map] in IH |- *. destruct H as [->|H].
    + apply substring_append_l, substring_middle.
    + apply substring_append_r, substring_append_r, IH, H.
Qed.

Lemma maybe_you_meant_names (name msg : string) (source : list string) (k : string) :
  In k source -> near_match name k = true ->
  substring k (maybe_you_meant name msg source).
Proof.
  intros Hin Hnear. unfold maybe_you_meant.
  assert (Hf : In k (filter (near_match name) source))
    by (apply filter_In; auto).
  destruct (filter (near_match name) source) as [|x l] eqn:F; [destruct Hf|].
  apply substring_append_r, substring_append_r, substring_append_l.
  apply substring_concat_quoted, Hf.
Qed.

Lemma maybe_you_meant_keeps (name msg : string) (source : list string) (a : string) :
  substring a msg -> substring a (maybe_you_meant name msg source).
Proof.
  intros H. unfold maybe_you_meant.
  destruct (filter (near_match name) source); [exact H|].
  apply substring_append_l, H.
Qed.

(** C6: for a name that is a key of the source table neither as given nor
    with its hyphens replaced by underscores, construction logs nothing and
    raises the invalid-source [ValueError]; the message names the offending
    name, and names every key of the table within one edit of it, so at
    least one whenever such a key exists. *)
Theorem C6_invalid_name_suggests
        (source_info citation_info : list (string * list (string * value)))
        (d : string) :
  smem d source_info = false ->
  smem (replace d "-" "_") source_info = false ->
  exists msg,
    DatasetMetadata__init__ source_info citation_info (ByName d)
    = ([], Raise (ValueError msg))
    /\ substring ("Received invalid public source: '" ++ d ++ "'.") msg
    /\ forall k, In k (map fst source_info) -> near_match d k = true ->
                 substring k msg.
Proof.
  intros H1 H2. eexists. split; [apply construct_unknown; assumption|].
  split.
  - apply maybe_you_meant_keeps, substring_refl.
  - intros k Hk Hn. apply maybe_you_meant_names; assumption.
Qed.

Lemma C6_witness :
  (smem "rice_seedlin" sample_sources = false
   /\ smem (replace "rice_seedlin" "-" "_") sample_sources = false)
  /\ exists msg,
      DatasetMetadata__init__ sample_sources sample_citations (ByName "rice_seedlin")
      = ([], Raise (ValueError msg))
      /\ substring "Received invalid public source: 'rice_seedlin'." msg
      /\ forall k, In k (map fst sample_sources) -> near_match "rice_seedlin" k = true ->
                   substring k msg.
Proof.
  split; [split; reflexivity|].
  apply (C6_invalid_name_suggests sample_sources sample_citations "rice_seedlin");
    reflexivity.
Defined.

(** The message of the sample: the one near match is appended. *)
Example invalid_name_message :
  snd (DatasetMetadata__init__ sample_sources sample_citations (ByName "rice_seedlin"))
  = Raise (ValueError
      "Received invalid public source: 'rice_seedlin'. Maybe you meant: 'rice_seedling'?").
Proof. reflexivity. Qed.

(** *** Equality, license and citation *)

(** C9: comparing a registry with anything that is not a registry gives
    [False], in particular with the string of its own name, although
    [repr] and [str] of the registry are that name; two registries are
    equal exactly when their names are. *)
Theorem C9_equality_between_registries_only (r : DatasetMetadata) :
  (forall v, __eq__ r (OValue v) = false)
  /\ __eq__ r (OValue (VStr (name r))) = false
  /\ __repr__ r = name r
  /\ __str__ r = name r
  /\ (forall r', __eq__ r (OInfo r') = true <-> name r = name r').
Proof.
  repeat split; try reflexivity.
  - cbn [__eq__]. apply String.eqb_eq.
  - cbn [__eq__]. apply String.eqb_eq.
Qed.

Lemma is_empty_str_spec (v : value) : is_empty_str v = true <-> v = VStr "".
Proof.
  destruct v; cbn; try (split; discriminate).
  rewrite String.eqb_eq. split; [intros ->; reflexivity | intros H; injection H; auto].
Qed.

(** C8: when the [license] entry of the citation record is the empty
    string the [license] property is [None], likewise for [citation], and
    neither property ever returns the empty string. *)
Theorem C8_empty_field_reads_None (r : DatasetMetadata) :
  (sget "license" (items (_citation_meta r)) = Some (VStr "") -> license r = Ok VNone)
  /\ (sget "citation" (items (_citation_meta r)) = Some (VStr "") -> citation r = Ok VNone)
  /\ license r <> Ok (VStr "")
  /\ citation r <> Ok (VStr "").
Proof.
  unfold license, citation, __getitem__.
  repeat split.
  - intros ->. reflexivity.
  - intros ->. reflexivity.
  - destruct (sget "license" _) as [v|]; cbn [bind]; [|discriminate].
    destruct (is_empty_str v) eqn:E; [discriminate|].
    intros H. injection H as ->. discriminate.
  - destruct (sget "citation" _) as [v|]; cbn [bind]; [|discriminate].
    destruct (is_empty_str v) eqn:E; [discriminate|].
    intros H. injection H as ->. discriminate.
Qed.

Lemma C8_witness :
  sget "citation"
       (items (_citation_meta (loaded sample_sources sample_citations "apple_flower")))
  = Some (VStr "")
  /\ citation (loaded sample_sources sample_citations "apple_flower") = Ok VNone.
Proof.
  split; [reflexivity|].
  apply (C8_empty_field_reads_None (loaded sample_sources sample_citations "apple_flower")).
  reflexivity.
Defined.

(** *** The class mappings *)

Lemma key_eqb_refl (v : value) : hashable v = true -> key_eqb v v = true.
Proof.
  destruct v; cbn; intros H; try discriminate; try reflexivity;
    try apply Qeq_bool_refl; apply String.eqb_refl.
Qed.

Lemma dict_set_fresh {K V : Type} (eqb : K -> K -> bool) (k : K) (v : V)
      (d : list (K * V)) :
  (forall k' v', In (k', v') d -> eqb k' k = false) ->
  dict_set eqb k v d = (d ++ [(k, v)])%list.
Proof.
  induction d as [|[k0 v0] d IH]; intros H; cbn; [reflexivity|].
  rewrite (H k0 v0 (or_introl eq_refl)). f_equal.
  apply IH. intros k' v' Hin. apply (H k' v'). right. exact Hin.
Qed.

Lemma dict_set_In_Z {V : Type} (k : Z) (v : V) (d : list (Z * V)) (x : Z * V) :
  In x (dict_set Z.eqb k v d) -> In x d \/ x = (k, v).
Proof.
  induction d as [|[k0 v0] d IH]; cbn.
  - intros [<-|[]]. auto.
  - destruct (Z.eqb_spec k0 k) as [->|Hne]; cbn.
    + intros [<-|H]; auto.
    + intros [<-|H]; auto. destruct (IH H); auto.
Qed.

Lemma dict_of_In_Z {V : Type} (ps : list (Z * V)) (x : Z * V) :
  In x (dict_of Z.eqb ps) -> In x ps.
Proof.
  unfold dict_of.
  assert (G : forall acc, In x (fold_left (fun d kv => dict_set Z.eqb (fst kv) (snd kv) d) ps acc)
                          -> In x acc \/ In x ps).
  { induction ps as [|[k v] ps IH]; intros acc; cbn [fold_left]; [auto|].
    intros H. apply IH in H. destruct H as [H|H]; [|right; right; exact H].
    cbn [fst snd] in H. apply dict_set_In_Z in H. destruct H as [H| ->]; auto.
    right. left. reflexivity. }
  intros H. destruct (G [] H) as [[]|H']. exact H'.
Qed.

Lemma distinct_head (a : value) (l : list value) (v : value) :
  distinct_labels (a :: l) = true -> In v l -> key_eqb a v = false.
Proof.
  cbn [distinct_labels]. intros H Hin.
  apply andb_true_iff in H. destruct H as [H _]. apply negb_true_iff in H.
  destruct (key_eqb a v) eqn:E; [|reflexivity].
  rewrite <- H. symmetry. apply existsb_exists. exists v. auto.
Qed.

Lemma dict_of_labels_distinct (vs : list value) :
  forall (nums : list Z) (acc : list (value * Z)),
    forallb hashable vs = true ->
    distinct_labels vs = true ->
    (forall k' n' v, In (k', n') acc -> In v vs -> key_eqb k' v = false) ->
    dict_of_labels (combine vs nums) acc = Ok (acc ++ combine vs nums)%list.
Proof.
  induction vs as [|a vs IH]; intros nums acc Hh Hd Hacc.
  - cbn. rewrite app_nil_r. reflexivity.
  - destruct nums as [|n nums]; [cbn; rewrite app_nil_r; reflexivity|].
    cbn [combine dict_of_labels].
    cbn [forallb] in Hh. apply andb_true_iff in Hh. destruct Hh as [Ha Hh].
    rewrite Ha.
    rewrite dict_set_fresh
      by (intros k' v' Hin; apply (Hacc k' v' a Hin); left; reflexivity).
    rewrite IH.
    + rewrite <- app_assoc. reflexivity.
    + exact Hh.
    + cbn [distinct_labels] in Hd. apply andb_true_iff in Hd. apply Hd.
    + intros k' n' v Hin Hv. apply in_app_or in Hin. destruct Hin as [Hin|[E|[]]].
      * apply (Hacc k' n' v Hin). right. exact Hv.
      * injection E as <- <-. eapply distinct_head; eauto.
Qed.

Lemma dict_get_combine (vs : list value) :
  forall (nums : list Z) (label : value) (i : Z),
    distinct_labels vs = true ->
    hashable label = true ->
    In (label, i) (combine vs nums) ->
    dict_get key_eqb label (combine vs nums) = Some i.
Proof.
  induction vs as [|a vs IH]; intros nums label i Hd Hh Hin; [destruct Hin|].
  destruct nums as [|n nums]; [destruct Hin|].
  cbn [combine dict_get]. destruct Hin as [E|Hin].
  - injection E as -> ->. rewrite key_eqb_refl by exact Hh. reflexivity.
  - rewrite (distinct_head a vs label Hd) by (eapply in_combine_l; eauto).
    apply IH; auto.
    cbn [distinct_labels] in Hd. apply andb_true_iff in Hd. apply Hd.
Qed.

Lemma In_combine_swap {A B : Type} (l : list A) :
  forall (l' : list B) a b, In (a, b) (combine l l') -> In (b, a) (combine l' l).
Proof.
  induction l as [|x l IH]; intros l' a b H; [destruct H|].
  destruct l' as [|y l']; [destruct H|].
  cbn [combine] in H |- *. destruct H as [E|H].
  - injection E as -> ->. left. reflexivity.
  - right. apply IH, H.
Qed.

Lemma mapM_total {A B : Type} (f : A -> result B) (l : list A) :
  (forall a, In a l -> exists b, f a = Ok b) ->
  exists bs, mapM f l = Ok bs.
Proof.
  induction l as [|a l IH]; intros H; cbn [mapM]; [eauto|].
  destruct (H a (or_introl eq_refl)) as [b ->]. cbn [bind].
  destruct IH as [bs ->]; [intros a' Ha'; apply H; right; exact Ha'|].
  cbn [bind]. eauto.
Qed.

Lemma getitem_missing (d : _MetadataDict) (item : string) :
  sget item (items d) = None ->
  __getitem__ d item = Raise (missing_metadata (_dataset d) item).
Proof. intros H. unfold __getitem__. rewrite H. reflexivity. Qed.

Lemma getitem_present (d : _MetadataDict) (item : string) (v : value) :
  sget item (items d) = Some v -> __getitem__ d item = Ok v.
Proof. intros H. unfold __getitem__. rewrite H. reflexivity. Qed.

Lemma dict_set_key_In {K V : Type} (eqb : K -> K -> bool) (k : K) (v : V)
      (d : list (K * V)) (x : K) :
  In x (map fst (dict_set eqb k v d)) -> In x (map fst d) \/ x = k.
Proof.
  induction d as [|[k0 v0] d IH]; cbn.
  - intros [<-|[]]. auto.
  - destruct (eqb k0 k); cbn; intros [<-|H]; auto.
    destruct (IH H); auto.
Qed.

Lemma dict_set_NoDup_Z {V : Type} (k : Z) (v : V) (d : list (Z * V)) :
  NoDup (map fst d) -> NoDup (map fst (dict_set Z.eqb k v d)).
Proof.
  induction d as [|[k0 v0] d IH]; cbn; intros H.
  - constructor; [intros [] | constructor].
  - inversion H as [|? ? Hk0 Hd]; subst.
    destruct (Z.eqb_spec k0 k) as [->|Hne]; cbn; [exact H|].
    constructor; [|apply IH, Hd].
    intros Hin. apply dict_set_key_In in Hin. destruct Hin as [Hin|E]; auto.
Qed.

Lemma dict_set_length {K V : Type} (eqb : K -> K -> bool) (k : K) (v : V)
      (d : list (K * V)) :
  (length (dict_set eqb k v d) <= S (length d))%nat.
Proof.
  induction d as [|[k0 v0] d IH]; cbn; [lia|].
  destruct (eqb k0 k); cbn; lia.
Qed.

Lemma dict_of_NoDup_length {V : Type} (ps : list (Z * V)) :
  NoDup (map fst (dict_of Z.eqb ps)) /\ (length (dict_of Z.eqb ps) <= length ps)%nat.
Proof.
  unfold dict_of.
  assert (G : forall acc,
             NoDup (map fst acc) ->
             NoDup (map fst (fold_left (fun d kv => dict_set Z.eqb (fst kv) (snd kv) d) ps acc))
             /\ (length (fold_left (fun d kv => dict_set Z.eqb (fst kv) (snd kv) d) ps acc)
                 <= length acc + length ps)%nat).
  { induction ps as [|[k v] ps IH]; intros acc Hacc; cbn [fold_left length].
    - split; [exact Hacc | lia].
    - destruct (IH (dict_set Z.eqb k v acc) (dict_set_NoDup_Z k v acc Hacc)) as [N L].
      split; [exact N|]. pose proof (dict_set_length Z.eqb k v acc). cbn [fst snd]. lia. }
  apply (G []). constructor.
Qed.

Lemma dict_of_distinct_keys {V : Type} (ps : list (Z * V)) :
  NoDup (map fst ps) -> dict_of Z.eqb ps = ps.
Proof.
  unfold dict_of.
  assert (G : forall acc,
             NoDup (map fst (acc ++ ps)) ->
             fold_left (fun d kv => dict_set Z.eqb (fst kv) (snd kv) d) ps acc
             = (acc ++ ps)%list).
  { induction ps as [|[k v] ps IH]; intros acc H; cbn [fold_left].
    - rewrite app_nil_r. reflexivity.
    - cbn [fst snd]. rewrite dict_set_fresh.
      + rewrite IH; [rewrite <- app_assoc; reflexivity|].
        rewrite <- app_assoc. exact H.
      + intros k' v' Hin. apply Z.eqb_neq. intros ->.
        rewrite map_app in H. cbn [map fst] in H.
        apply NoDup_remove_2 in H. apply H. apply in_or_app. left.
        apply in_map_iff. exists (k, v'). auto. }
  intros H. apply (G [] H).
Qed.

Lemma dict_get_distinct_keys {V : Type} (ps : list (Z * V)) (k : Z) (v : V) :
  NoDup (map fst ps) -> In (k, v) ps -> dict_get Z.eqb k ps = Some v.
Proof.
  induction ps as [|[k0 v0] ps IH]; intros Hnd Hin; [destruct Hin|].
  cbn [map fst] in Hnd. inversion Hnd as [|? ? Hk0 Hnd']; subst.
  cbn [dict_get]. destruct Hin as [E|Hin].
  - injection E as -> ->. rewrite Z.eqb_refl. reflexivity.
  - destruct (Z.eqb_spec k0 k) as [->|]; [|apply IH; assumption].
    exfalso. apply Hk0. apply in_map_iff. exists (k, v). auto.
Qed.

Lemma mapM_Forall2 {A B : Type} (f : A -> result B) (l : list A) :
  forall bs, mapM f l = Ok bs -> Forall2 (fun a b => f a = Ok b) l bs.
Proof.
  induction l as [|a l IH]; cbn [mapM]; intros bs H.
  - injection H as <-. constructor.
  - destruct (f a) as [b|] eqn:E; cbn [bind] in H; [|discriminate].
    destruct (mapM f l) as [bs'|]; cbn [bind] in H; [|discriminate].
    injection H as <-. constructor; auto.
Qed.

Lemma mapM_Ok_iff {A B : Type} (f : A -> result B) (l : list A) :
  (exists bs, mapM f l = Ok bs) <-> (forall a, In a l -> exists b, f a = Ok b).
Proof.
  split; [|apply mapM_total].
  intros (bs & H) a Hin. apply mapM_Forall2 in H.
  revert bs H. induction l as [|a0 l IH]; intros bs H; [destruct Hin|].
  inversion H; subst. destruct Hin as [<-|Hin]; eauto.
Qed.

Lemma combine_fst_same_length {A B : Type} (l : list A) :
  forall (l' : list B), length l = length l' -> map fst (combine l l') = l.
Proof.
  induction l as [|a l IH]; intros [|b l'] H; cbn in *; try reflexivity; try discriminate.
  f_equal. apply IH. lia.
Qed.

Lemma Forall2_same_length {A B : Type} (R : A -> B -> Prop) (l : list A) (l' : list B) :
  Forall2 R l l' -> length l = length l'.
Proof. induction 1; cbn; congruence. Qed.

Lemma combine_from_table (int_float : value -> result Z) (d : list (string * value)) :
  forall nums i label,
    Forall2 (fun k n => int_float (VStr k) = Ok n) (map fst d) nums ->
    In (i, label) (combine nums (map snd d)) ->
    exists k, In (k, label) d /\ int_float (VStr k) = Ok i.
Proof.
  induction d as [|[k0 v0] d IH]; intros nums i label HF Hin.
  - inversion HF; subst. destruct Hin.
  - cbn [map fst snd] in HF, Hin. inversion HF as [|? n ? nums' Hk HF']; subst.
    cbn [combine] in Hin. destruct Hin as [E|Hin].
    + injection E as -> ->. exists k0. split; [left; reflexivity | exact Hk].
    + destruct (IH nums' i label HF' Hin) as (k & Hk' & Hc).
      exists k. split; [right; exact Hk' | exact Hc].
Qed.

(** *** Reading a property *)

Lemma attribute_Ok {A : Type} (self : DatasetMetadata) (key : string)
      (fget : result A) (a : A) :
  fget = Ok a -> attribute self key fget = Ok (inl a).
Proof. intros ->. reflexivity. Qed.

Lemma attribute_Raise {A : Type} (self : DatasetMetadata) (key : string)
      (fget : result A) (e : exn) :
  fget = Raise e -> class_of e <> CAttributeError -> attribute self key fget = Raise e.
Proof. intros -> H. destruct e; cbn in *; congruence. Qed.

Lemma attribute_Ok_inl {A : Type} (self : DatasetMetadata) (key : string)
      (fget : result A) (a : A) :
  attribute self key fget = Ok (inl a) -> fget = Ok a.
Proof.
  unfold attribute, DatasetMetadata__getattr__.
  destruct fget as [a'|[msg|arg|msg|why]]; try discriminate.
  - intros H. injection H as ->. reflexivity.
  - destruct (smem key (items (_metadata self))); [|discriminate].
    destruct (__getitem__ (_metadata self) key); discriminate.
Qed.

(** After an [AttributeError] of the getter the property reads as the entry
    of the record under its own name, and raises [AttributeError] when the
    record has no such entry. *)
Lemma attribute_fallback {A : Type} (self : DatasetMetadata) (key : string)
      (fget : result A) (msg : string) :
  fget = Raise (AttributeError msg) ->
  match sget key (items (_metadata self)) with
  | Some v => attribute self key fget = Ok (inr v)
  | None => raises (attribute self key fget) CAttributeError
  end.
Proof.
  intros ->. unfold attribute, DatasetMetadata__getattr__, smem, dict_mem.
  fold (@sget value).
  destruct (sget key (items (_metadata self))) as [v|] eqn:E.
  - rewrite (getitem_present _ _ _ E). reflexivity.
  - eexists. split; reflexivity.
Qed.

(** *** Flat class mappings: the two directions *)

(** The getters on a flat mapping whose keys are all coerced. *)
Lemma flat_getters (int_float : value -> result Z) (r : DatasetMetadata)
      (d : list (string * value)) (nums : list Z) :
  sget "classes" (items (_metadata r)) = Some (VDict d) ->
  has_nested_dicts (VDict d) = false ->
  nums_of int_float (map fst d) = Ok nums ->
  length nums = length d
  /\ num_to_class_fget int_float r = Ok (Flat (dict_of Z.eqb (combine nums (map snd d))))
  /\ (forallb hashable (map snd d) = true -> distinct_labels (map snd d) = true ->
      class_to_num_fget int_float r = Ok (Flat (combine (map snd d) nums))).
Proof.
  intros Hc Hflat Hn.
  split.
  { unfold nums_of in Hn. apply mapM_Forall2, Forall2_same_length in Hn.
    rewrite length_map in Hn. congruence. }
  unfold num_to_class_fget, class_to_num_fget.
  rewrite (getitem_present _ _ _ Hc). cbn [bind]. rewrite Hflat.
  cbn [keys values bind]. rewrite Hn. cbn [bind]. split; [reflexivity|].
  intros Hh Hd.
  rewrite (dict_of_labels_distinct (map snd d) nums []) by (auto; intros ? ? ? []).
  reflexivity.
Qed.

Lemma combine_snd_same_length {A B : Type} (l : list A) :
  forall (l' : list B), length l = length l' -> map snd (combine l l') = l'.
Proof.
  induction l as [|a l IH]; intros [|b l'] H; cbn in *; try reflexivity; try discriminate.
  f_equal. apply IH. lia.
Qed.

(** C3: for a registry whose [classes] entry is a flat mapping with keys
    that [int(float(.))] accepts and labels that are hashable and pairwise
    distinct, [num_to_class] and [class_to_num] both return a mapping, and
    every pair (i, label) of the first is found as [label -> i] in the
    second; when moreover the indices of [class_to_num] are pairwise
    distinct, every pair (label, i) of the second is found as [i -> label]
    in the first, so that each mapping is the inverse of the other. *)
Theorem C3_flat_distinct_labels_inverse (int_float : value -> result Z)
        (r : DatasetMetadata) (d : list (string * value)) :
  sget "classes" (items (_metadata r)) = Some (VDict d) ->
  has_nested_dicts (VDict d) = false ->
  forallb hashable (map snd d) = true ->
  distinct_labels (map snd d) = true ->
  (forall k, In k (map fst d) -> exists n, int_float (VStr k) = Ok n) ->
  exists n2c c2n,
    num_to_class int_float r = Ok (inl (Flat n2c))
    /\ class_to_num int_float r = Ok (inl (Flat c2n))
    /\ inverse_of n2c c2n
    /\ (NoDup (map snd c2n) ->
        forall label i, In (label, i) c2n -> dict_get Z.eqb i n2c = Some label).
Proof.
  intros Hc Hflat Hh Hd Hk.
  destruct (mapM_total (fun i => int_float (VStr i)) (map fst d) Hk) as [nums Hn].
  destruct (flat_getters int_float r d nums Hc Hflat Hn) as (Hlen & Hn2c & Hc2n).
  specialize (Hc2n Hh Hd).
  exists (dict_of Z.eqb (combine nums (map snd d))), (combine (map snd d) nums).
  split; [apply attribute_Ok, Hn2c|]. split; [apply attribute_Ok, Hc2n|].
  split.
  - intros i label Hin. apply dict_of_In_Z in Hin. apply In_combine_swap in Hin.
    apply dict_get_combine; auto.
    apply in_combine_l in Hin. rewrite forallb_forall in Hh. apply Hh, Hin.
  - intros Hnd label i Hin.
    rewrite combine_snd_same_length in Hnd by (rewrite length_map; congruence).
    rewrite dict_of_distinct_keys
      by (rewrite combine_fst_same_length; [exact Hnd | rewrite length_map; exact Hlen]).
    apply In_combine_swap in Hin.
    apply dict_get_distinct_keys; [|exact Hin].
    rewrite combine_fst_same_length; [exact Hnd | rewrite length_map; exact Hlen].
Qed.

Lemma C3_witness :
  (sget "classes" (items (_metadata fruit_pair)) = Some (VDict fruit_classes)
   /\ has_nested_dicts (VDict fruit_classes) = false
   /\ forallb hashable (map snd fruit_classes) = true
   /\ distinct_labels (map snd fruit_classes) = true
   /\ (forall k, In k (map fst fruit_classes) ->
                 exists n, int_float_plain (VStr k) = Ok n))
  /\ exists n2c c2n,
      num_to_class int_float_plain fruit_pair = Ok (inl (Flat n2c))
      /\ class_to_num int_float_plain fruit_pair = Ok (inl (Flat c2n))
      /\ inverse_of n2c c2n
      /\ (NoDup (map snd c2n) ->
          forall label i, In (label, i) c2n -> dict_get Z.eqb i n2c = Some label).
Proof.
  assert (K : forall k, In k (map fst fruit_classes) ->
                        exists n, int_float_plain (VStr k) = Ok n).
  { intros k [<-|[<-|[]]]; eexists; reflexivity. }
  split; [repeat split; try reflexivity; exact K|].
  apply (C3_flat_distinct_labels_inverse int_float_plain fruit_pair fruit_classes);
    try reflexivity; exact K.
Defined.

(** On [fruit_pair] the two mappings are the pairs of the table, and each
    direction is exercised on two entries. *)
Example fruit_pair_mappings :
  num_to_class int_float_plain fruit_pair
  = Ok (inl (Flat [(0%Z, VStr "apple"); (1%Z, VStr "grape")]))
  /\ class_to_num int_float_plain fruit_pair
     = Ok (inl (Flat [(VStr "apple", 0%Z); (VStr "grape", 1%Z)])).
Proof. split; reflexivity. Qed.

(** On [weed_survey] the indices 0 and 1 share the label [weed]:
    [num_to_class] holds the pair (0, weed) and [class_to_num] maps [weed]
    to 1. *)
Lemma C3_duplicate_labels_not_inverse :
  snd (DatasetMetadata__init__ sample_sources sample_citations (ByName "weed_survey"))
  = Ok weed_survey
  /\ num_to_class int_float_plain weed_survey
     = Ok (inl (Flat [(0%Z, VStr "weed"); (1%Z, VStr "weed")]))
  /\ class_to_num int_float_plain weed_survey = Ok (inl (Flat [(VStr "weed", 1%Z)]))
  /\ ~ inverse_of [(0%Z, VStr "weed"); (1%Z, VStr "weed")] [(VStr "weed", 1%Z)].
Proof.
  repeat split; try reflexivity.
  intros H. specialize (H 0%Z (VStr "weed") (or_introl eq_refl)).
  cbn in H. discriminate.
Qed.

(** On [collapsed_pair] the keys 1 and 1.0 are coerced to the one index 1:
    the labels are distinct and every pair of [num_to_class] is found in
    [class_to_num], but [class_to_num] maps [apple] to 1 and [num_to_class]
    maps 1 to [grape]. *)
Example collapsed_indices_not_inverse :
  num_to_class int_float_plain collapsed_pair = Ok (inl (Flat [(1%Z, VStr "grape")]))
  /\ class_to_num int_float_plain collapsed_pair
     = Ok (inl (Flat [(VStr "apple", 1%Z); (VStr "grape", 1%Z)]))
  /\ inverse_of [(1%Z, VStr "grape")] [(VStr "apple", 1%Z); (VStr "grape", 1%Z)]
  /\ dict_get Z.eqb 1%Z [(1%Z, VStr "grape")] <> Some (VStr "apple").
Proof.
  repeat split; try reflexivity.
  - intros i label [E|[]]. injection E as <- <-. reflexivity.
  - discriminate.
Qed.

(** *** Class types grouped in nested mappings *)

Lemma sget_In_NoDup {V : Type} (d : list (string * V)) (k : string) (v : V) :
  NoDup (map fst d) -> In (k, v) d -> sget k d = Some v.
Proof.
  unfold sget.
  induction d as [|[k0 v0] d IH]; intros Hnd Hin; [destruct Hin|].
  cbn [map fst] in Hnd. inversion Hnd as [|? ? Hk0 Hnd']; subst.
  cbn [dict_get]. destruct Hin as [E|Hin].
  - injection E as -> ->. rewrite String.eqb_refl. reflexivity.
  - destruct (String.eqb_spec k0 k) as [->|]; [|apply IH; assumption].
    exfalso. apply Hk0. apply in_map_iff. exists (k, v). auto.
Qed.

(** The loop stops at the first class type whose entry is a dict, on the
    attribute lookup [class_type.keys()]. *)
Lemma num_to_class_loop_raises (d : list (string * value)) (ks : list string) :
  (forall k, In k ks -> exists v, sget k d = Some v) ->
  (exists k v, In k ks /\ sget k d = Some v /\ is_dict v = true) ->
  forall out,
    num_to_class_loop d ks out
    = Raise (AttributeError "'str' object has no attribute 'keys'").
Proof.
  induction ks as [|k ks IH]; intros Hall (k0 & v0 & Hin & Hget & Hdict) out;
    [destruct Hin|].
  cbn [num_to_class_loop]. unfold subscript.
  destruct (Hall k (or_introl eq_refl)) as [v Hv]. rewrite Hv. cbn [bind].
  destruct (is_dict v) eqn:E; [reflexivity|].
  apply IH.
  - intros k' Hk'. apply Hall. right. exact Hk'.
  - exists k0, v0. repeat split; auto.
    destruct Hin as [->|Hin]; [|exact Hin].
    rewrite Hv in Hget. injection Hget as ->. congruence.
Qed.

(** Whenever [classes] groups its labels by class type, the getter of
    [num_to_class] raises [AttributeError], whatever the coercion; reading
    the property then raises the [AttributeError] of [__getattr__], unless
    the record has an entry called [num_to_class], which is returned. *)
Lemma num_to_class_nested_raises (int_float : value -> result Z)
      (r : DatasetMetadata) (d : list (string * value)) :
  sget "classes" (items (_metadata r)) = Some (VDict d) ->
  NoDup (map fst d) ->
  has_nested_dicts (VDict d) = true ->
  num_to_class_fget int_float r
  = Raise (AttributeError "'str' object has no attribute 'keys'")
  /\ match sget "num_to_class" (items (_metadata r)) with
     | Some v => num_to_class int_float r = Ok (inr v)
     | None => raises (num_to_class int_float r) CAttributeError
     end.
Proof.
  intros Hc Hnd Hn.
  assert (G : num_to_class_fget int_float r
              = Raise (AttributeError "'str' object has no attribute 'keys'"));
    [|split; [exact G | exact (attribute_fallback r "num_to_class" _ _ G)]].
  unfold num_to_class_fget, __getitem__. rewrite Hc. cbn [bind].
  rewrite Hn. rewrite num_to_class_loop_raises; [reflexivity| |].
  - intros k Hk. apply in_map_iff in Hk. destruct Hk as ([k' v] & <- & Hin).
    exists v. apply sget_In_NoDup; assumption.
  - cbn [has_nested_dicts] in Hn. apply existsb_exists in Hn.
    destruct Hn as (v & Hv & Hd). apply in_map_iff in Hv.
    destruct Hv as ([k v'] & E & Hin). cbn [snd] in E. subst v'.
    exists k, v. repeat split; auto.
    + apply in_map_iff. exists (k, v). auto.
    + apply sget_In_NoDup; assumption.
Qed.

(** C2, on a dataset with grouped classes: [plant_village] is a key of both
    sample tables, its construction succeeds under its own name and logs
    nothing, and every accessor returns except [num_to_class]: its getter
    raises [AttributeError] on the key of the first class type, and reading
    the property raises the [AttributeError] of [__getattr__];
    [class_to_num] returns one mapping per class type. *)
Theorem C2_nested_classes_num_to_class_raises :
  DatasetMetadata__init__ sample_sources sample_citations (ByName "plant_village")
  = ([], Ok plant_village)
  /\ name plant_village = "plant_village"
  /\ num_to_class_fget int_float_plain plant_village
     = Raise (AttributeError "'str' object has no attribute 'keys'")
  /\ num_to_class int_float_plain plant_village
     = Raise (AttributeError "Received invalid info parameter: 'num_to_class'.")
  /\ class_to_num int_float_plain plant_village
     = Ok (inl (Nested
                  [("crop", Mapped [(VStr "apple", 0%Z); (VStr "grape", 1%Z)]);
                   ("disease", Mapped [(VStr "healthy", 0%Z); (VStr "rust", 1%Z)])]))
  /\ num_images int_float_plain plant_village = Ok 5000%Z
  /\ tasks plant_village
     = Ok {| ml := VStr "object_detection"; ag := VStr "flower_counting" |}
  /\ location plant_village
     = Ok (inl {| continent := VStr "North America"; country := VStr "USA" |})
  /\ (exists st, image_stats plant_village = Ok (inl st))
  /\ classes plant_village
     = Ok (inl (ClassLists [("crop", [VStr "apple"; VStr "grape"]);
                            ("disease", [VStr "healthy"; VStr "rust"])]))
  /\ num_classes plant_village = Ok (inl 2%nat)
  /\ license plant_village = Ok VNone
  /\ citation plant_village = Ok VNone.
Proof.
  repeat split; try reflexivity. eexists. reflexivity.
Qed.

(** The scenario of the specification: the record of [apple_flower]. *)
Example apple_flower_scenario :
  DatasetMetadata__init__ sample_sources sample_citations (ByName "apple_flower")
  = ([], Ok apple_flower)
  /\ num_images int_float_plain apple_flower = Ok 3000%Z
  /\ tasks apple_flower
     = Ok {| ml := VStr "object_detection"; ag := VStr "flower_counting" |}
  /\ num_to_class int_float_plain apple_flower = Ok (inl (Flat [(0%Z, VStr "flower")]))
  /\ class_to_num int_float_plain apple_flower = Ok (inl (Flat [(VStr "flower", 0%Z)])).
Proof. repeat split; reflexivity. Qed.

(** *** Names that differ by hyphens, and the citation table *)

Lemma C5_witness :
  (smem "apple-flower" sample_sources = false
   /\ smem (replace "apple-flower" "-" "_") sample_sources = true)
  /\ fst (DatasetMetadata__init__ sample_sources sample_citations (ByName "apple-flower"))
     = ["Interpreted dataset 'apple-flower' as 'apple_flower.'"]
  /\ snd (DatasetMetadata__init__ sample_sources sample_citations (ByName "apple-flower"))
     = snd (DatasetMetadata__init__ sample_sources sample_citations (ByName "apple_flower")).
Proof.
  split; [split; reflexivity|].
  destruct (C5_hyphenated_name_resolves sample_sources sample_citations "apple-flower")
    as (L & _ & E & _); try reflexivity.
  split; [exact L | exact E].
Defined.

(** Two inputs on which the hyphenated and the underscored name part ways:
    [fruit-detection] is itself a key, so it is taken as given and names
    another registry than [fruit_detection]; [rice-seedling] resolves to
    [rice_seedling], which the citation table lacks, and construction
    raises. *)
Lemma C5_hyphenated_name_differs :
  (smem (replace "fruit-detection" "-" "_") sample_sources = true
   /\ DatasetMetadata__init__ sample_sources sample_citations (ByName "fruit-detection")
      = ([], Ok (loaded sample_sources sample_citations "fruit-detection"))
   /\ DatasetMetadata__init__ sample_sources sample_citations (ByName "fruit_detection")
      = ([], Ok (loaded sample_sources sample_citations "fruit_detection"))
   /\ __eq__ (loaded sample_sources sample_citations "fruit-detection")
             (OInfo (loaded sample_sources sample_citations "fruit_detection")) = false)
  /\ (smem (replace "rice-seedling" "-" "_") sample_sources = true
      /\ DatasetMetadata__init__ sample_sources sample_citations (ByName "rice-seedling")
         = (["Interpreted dataset 'rice-seedling' as 'rice_seedling.'"],
            Raise (KeyError "rice_seedling"))).
Proof. repeat split; reflexivity. Qed.

(** [rice_seedling] is a key of the source table and not of the citation
    table: construction raises the [KeyError] of the plain lookup, whose
    argument is the bare name, and produces no registry. *)
Lemma C7_missing_citation_raises_KeyError :
  smem "rice_seedling" sample_sources = true
  /\ smem "rice_seedling" sample_citations = false
  /\ DatasetMetadata__init__ sample_sources sample_citations (ByName "rice_seedling")
     = ([], Raise (KeyError "rice_seedling")).
Proof. repeat split; reflexivity. Qed.

End MetadataProofs.

(** ** Further properties of the parameter stores *)

Module StoreProperties.
Import Options OptionsProofs.

(** Any assignment that succeeds is an [object.__setattr__]. *)
Lemma setattr_ok_is_object_setattr (s s' : instance) (key : string) (v : value) :
  __setattr__ s key v = Ok s' -> s' = object_setattr s key v.
Proof.
  unfold __setattr__.
  destruct (negb (smem key (__dict__ s))).
  - destruct (negb (hasattr s "_block_new_attributes")); [|discriminate].
    intros H. injection H as <-. reflexivity.
  - destruct (sget key (__annotations__ (cls s))) as [a|]; [|discriminate].
    destruct (isinstance v a) as [[|]|e]; cbn [bind negb]; try discriminate.
    intros H. injection H as <-. reflexivity.
Qed.

(** An assignment that succeeds is read back and leaves every other
    attribute, and the class, as they were. *)
Theorem assignment_changes_one_attribute (s s' : instance) (key : string) (v : value) :
  __setattr__ s key v = Ok s' ->
  getattr s' key = Ok v
  /\ cls s' = cls s
  /\ forall key', key' <> key -> getattr s' key' = getattr s key'.
Proof.
  intros H. apply setattr_ok_is_object_setattr in H. subst s'.
  split; [apply getattr_object_setattr|]. split; [reflexivity|].
  intros key' Hne. apply getattr_object_setattr_other. congruence.
Qed.

Lemma assignment_changes_one_attribute_witness :
  __setattr__ sample_canopy_store "plant_spacing" (VFloat (2 # 1))
  = Ok (object_setattr sample_canopy_store "plant_spacing" (VFloat (2 # 1)))
  /\ getattr (object_setattr sample_canopy_store "plant_spacing" (VFloat (2 # 1)))
             "plant_spacing" = Ok (VFloat (2 # 1)).
Proof.
  split; [vm_compute; reflexivity|].
  apply (assignment_changes_one_attribute sample_canopy_store _ "plant_spacing"
           (VFloat (2 # 1))).
  vm_compute; reflexivity.
Defined.

(** The set of attribute names of a constructed store never changes: after
    any sequence of assignments the instance dictionary holds the fields of
    the schema in declaration order and the seal, and an assignment to any
    other name raises. *)
Theorem attribute_names_are_fixed (w : view) (kwargs : list (string * value))
        (s0 : instance) (ms : list (string * value)) :
  __init__ (schema w) kwargs = Ok s0 ->
  cls (assigns s0 ms) = schema w
  /\ map fst (__dict__ (assigns s0 ms)) = (fields (schema w) ++ [seal])%list
  /\ forall key v, ~ In key (fields (schema w)) ->
       exists e, __setattr__ (assigns s0 ms) key v = Raise e
                 /\ (class_of e = CAttributeError \/ class_of e = CKeyError).
Proof.
  intros H. pose proof (schema_wf w) as Hwf.
  apply (init_built _ _ _ Hwf) in H. subst s0.
  assert (Hs : sealed (schema w) (assigns (built (schema w) kwargs) ms))
    by (apply assigns_sealed; [exact Hwf | apply built_sealed]).
  split; [apply Hs|]. split; [apply Hs|].
  intros key v Hk. destruct (String.eqb_spec key seal) as [->|Hne].
  - eexists. split; [apply (setattr_seal (schema w)); assumption|]. right. reflexivity.
  - eexists. split; [apply (setattr_unknown (schema w)); assumption|]. left. reflexivity.
Qed.

Lemma attribute_names_are_fixed_witness :
  __init__ (schema lidar) (lidar_parameters sample_config)
  = Ok (_lidar_parameters sample_options)
  /\ map fst (__dict__ (assigns (_lidar_parameters sample_options)
                                [("thetaMin", VInt 10); ("range", VInt 3)]))
     = (fields (schema lidar) ++ [seal])%list.
Proof.
  split; [vm_compute; reflexivity|].
  apply (attribute_names_are_fixed lidar (lidar_parameters sample_config)
           (_lidar_parameters sample_options)
           [("thetaMin", VInt 10); ("range", VInt 3)]).
  vm_compute; reflexivity.
Defined.

(** The value of a field along a sequence of assignments: the value the
    constructor stored, or a value that passed the instance check of the
    field's annotation. *)
Lemma field_value_invariant (c : dataclass) (kwargs : list (string * value))
      (key : string) (a : annot) :
  well_formed c ->
  sget key (__annotations__ c) = Some a ->
  forall (ms : list (string * value)) (s : instance),
    sealed c s ->
    (exists v, getattr s key = Ok v
               /\ (v = kwarg kwargs key \/ isinstance v a = Ok true)) ->
    exists v, getattr (assigns s ms) key = Ok v
              /\ (v = kwarg kwargs key \/ isinstance v a = Ok true).
Proof.
  intros Hwf Ha ms. induction ms as [|[key' v'] ms IH]; intros s Hs Hv;
    cbn [assigns]; [exact Hv|].
  destruct (__setattr__ s key' v') as [s'|e] eqn:E; [|apply IH; assumption].
  apply IH; [eapply setattr_keeps_sealed; eauto|].
  destruct (setattr_ok_inv c s Hwf Hs key' v' s' E) as (a' & Ha' & Hi & ->).
  destruct (String.eqb_spec key' key) as [->|Hne].
  - rewrite Ha in Ha'. injection Ha' as <-.
    exists v'. split; [apply getattr_object_setattr | right; exact Hi].
  - rewrite getattr_object_setattr_other by exact Hne. exact Hv.
Qed.

(** Type discipline of a store: after construction and any sequence of
    assignments, every field holds either the value the constructor was
    given for it (the default [None] when it was given none) or a value of
    the field's declared type. *)
Theorem field_holds_default_or_typed_value (w : view) (kwargs : list (string * value))
        (s0 : instance) (ms : list (string * value)) (key : string) (a : annot) :
  __init__ (schema w) kwargs = Ok s0 ->
  sget key (__annotations__ (schema w)) = Some a ->
  exists v, getattr (assigns s0 ms) key = Ok v
            /\ (v = kwarg kwargs key \/ isinstance v a = Ok true).
Proof.
  intros H Ha. pose proof (schema_wf w) as Hwf.
  apply (init_built _ _ _ Hwf) in H. subst s0.
  apply (field_value_invariant (schema w) kwargs key a Hwf Ha);
    [apply built_sealed|].
  exists (kwarg kwargs key). split; [|left; reflexivity].
  apply getattr_built. apply smem_In. unfold smem, dict_mem.
  fold (@sget annot). rewrite Ha. reflexivity.
Qed.

Lemma field_holds_default_or_typed_value_witness :
  (__init__ (schema canopy) (defaults_of sample_config "VSPGrapevine" canopy)
   = Ok sample_canopy_store
   /\ sget "row_spacing" (__annotations__ (schema canopy)) = Some Number)
  /\ exists v,
      getattr (assigns sample_canopy_store
                       [("row_spacing", VFloat (5 # 2)); ("row_spacing", VStr "wide")])
              "row_spacing" = Ok v
      /\ (v = kwarg (defaults_of sample_config "VSPGrapevine" canopy) "row_spacing"
          \/ isinstance v Number = Ok true).
Proof.
  split; [split; vm_compute; reflexivity|].
  apply (field_holds_default_or_typed_value canopy
           (defaults_of sample_config "VSPGrapevine" canopy) sample_canopy_store);
    vm_compute; reflexivity.
Defined.

(** A field declared [List[Number]] keeps the value it was constructed with:
    no assignment, whatever its value, ever changes it. *)
Theorem list_field_is_frozen (w : view) (kwargs : list (string * value))
        (s0 : instance) (ms : list (string * value)) (key : string) (b : annot) :
  __init__ (schema w) kwargs = Ok s0 ->
  sget key (__annotations__ (schema w)) = Some (ListOf b) ->
  getattr (assigns s0 ms) key = Ok (kwarg kwargs key).
Proof.
  intros H Ha. pose proof (schema_wf w) as Hwf.
  apply (init_built _ _ _ Hwf) in H. subst s0.
  destruct (field_value_invariant (schema w) kwargs key (ListOf b) Hwf Ha ms
              (built (schema w) kwargs) (built_sealed _ _)) as (v & Hv & [->|Hi]).
  - exists (kwarg kwargs key). split; [|left; reflexivity].
    apply getattr_built. apply smem_In. unfold smem, dict_mem.
    fold (@sget annot). rewrite Ha. reflexivity.
  - exact Hv.
  - discriminate Hi.
Qed.

Lemma list_field_is_frozen_witness :
  (__init__ (schema camera) (camera_parameters sample_config)
   = Ok (_camera_parameters sample_options)
   /\ sget "image_resolution" (__annotations__ (schema camera)) = Some (ListOf Number))
  /\ getattr (assigns (_camera_parameters sample_options)
                      [("image_resolution", VList [VInt 640; VInt 480])])
             "image_resolution"
     = Ok (kwarg (camera_parameters sample_config) "image_resolution").
Proof.
  split; [split; vm_compute; reflexivity|].
  apply (list_field_is_frozen camera (camera_parameters sample_config)
           (_camera_parameters sample_options) _ "image_resolution" Number);
    vm_compute; reflexivity.
Defined.

(** Construction checks names, never types: called with keywords that are
    all fields it succeeds and every field reads the value that was passed
    for it, [None] when none was, whatever the type of that value; called
    with a keyword that is no field it raises [TypeError] for such a
    keyword: a second value for [self] when the keyword is [self], an
    unexpected keyword otherwise. *)
Theorem construction_checks_names_only (w : view) (kwargs : list (string * value)) :
  ((forall k, In k (map fst kwargs) -> In k (fields (schema w)))
   /\ exists s,
       __init__ (schema w) kwargs = Ok s
       /\ getattr s seal = Ok (VBool true)
       /\ forall key, In key (fields (schema w)) -> getattr s key = Ok (kwarg kwargs key))
  \/ (exists k,
        In k (map fst kwargs) /\ ~ In k (fields (schema w))
        /\ __init__ (schema w) kwargs
           = Raise (TypeError (if String.eqb k "self" then MultipleValues k
                               else UnexpectedKeyword k))).
Proof.
  pose proof (schema_wf w) as Hwf.
  destruct (find (fun kv => negb (smem (fst kv) (__annotations__ (schema w)))) kwargs)
    as [[k v]|] eqn:F.
  - right. exists k. pose proof (find_some _ _ F) as [Hin Hneg]. cbn [fst] in Hneg.
    apply negb_true_iff, smem_false_not_In in Hneg.
    repeat split.
    + apply in_map_iff. exists (k, v). auto.
    + exact Hneg.
    + unfold __init__. rewrite F. reflexivity.
  - left.
    assert (Hk : forall k, In k (map fst kwargs) -> In k (fields (schema w))).
    { intros k Hin. apply in_map_iff in Hin. destruct Hin as ([k' v] & <- & Hin).
      pose proof (find_none _ _ F _ Hin) as Hn. cbn [fst] in Hn.
      apply negb_false_iff in Hn. apply smem_In in Hn. exact Hn. }
    split; [exact Hk|]. exists (built (schema w) kwargs).
    split; [apply init_succeeds; assumption|]. split.
    + unfold getattr, built. cbn [__dict__].
      assert (E : sget seal (map (fun f => (f, kwarg kwargs f)) (fields (schema w))
                             ++ [(seal, VBool true)])%list = Some (VBool true)).
      { pose proof (fields_not_in_built_prefix (schema w) kwargs (proj2 Hwf)) as Hm.
        unfold smem, dict_mem in Hm. fold (@sget value) in Hm.
        generalize dependent (map (fun f => (f, kwarg kwargs f)) (fields (schema w))).
        intros l. unfold sget. induction l as [|[k0 v0] l IH]; cbn.
        - reflexivity.
        - destruct (String.eqb k0 seal); [discriminate | exact IH]. }
      rewrite E. reflexivity.
    + intros key Hkey. apply getattr_built, Hkey.
Qed.

(** A path field ([fruit_texture_file], [wood_texture_file]) refuses every
    [str], also the one the constructor may have stored there, and accepts
    a path object. *)
Theorem path_field_refuses_str (w : view) (kwargs : list (string * value))
        (s0 : instance) (ms : list (string * value)) (key p : string) :
  __init__ (schema w) kwargs = Ok s0 ->
  sget key (__annotations__ (schema w)) = Some PathLike ->
  __setattr__ (assigns s0 ms) key (VStr p)
  = Raise (TypeError (Mismatch PathLike key (VStr p)))
  /\ exists s', __setattr__ (assigns s0 ms) key (VPath p) = Ok s'
                /\ getattr s' key = Ok (VPath p).
Proof.
  intros H Ha. pose proof (schema_wf w) as Hwf.
  apply (init_built _ _ _ Hwf) in H. subst s0.
  assert (Hs : sealed (schema w) (assigns (built (schema w) kwargs) ms))
    by (apply assigns_sealed; [exact Hwf | apply built_sealed]).
  rewrite !(setattr_field _ _ Hs key PathLike _ Ha). cbn [isinstance bind negb].
  split; [reflexivity|]. eexists. split; [reflexivity|].
  apply getattr_object_setattr.
Qed.

Lemma path_field_refuses_str_witness :
  (__init__ (schema canopy) [("fruit_texture_file", VStr "textures/Grape.png")]
   = Ok (built CanopyParameters [("fruit_texture_file", VStr "textures/Grape.png")])
   /\ sget "fruit_texture_file" (__annotations__ (schema canopy)) = Some PathLike)
  /\ __setattr__
       (assigns (built CanopyParameters [("fruit_texture_file", VStr "textures/Grape.png")]) [])
       "fruit_texture_file" (VStr "textures/Grape.png")
     = Raise (TypeError (Mismatch PathLike "fruit_texture_file" (VStr "textures/Grape.png"))).
Proof.
  split; [split; vm_compute; reflexivity|].
  apply (path_field_refuses_str canopy
           [("fruit_texture_file", VStr "textures/Grape.png")]
           (built CanopyParameters [("fruit_texture_file", VStr "textures/Grape.png")])
           [] "fruit_texture_file" "textures/Grape.png");
    vm_compute; reflexivity.
Defined.

Lemma init_ok_iff (c : dataclass) (kwargs : list (string * value)) :
  well_formed c ->
  (exists s, __init__ c kwargs = Ok s)
  <-> (forall k, In k (map fst kwargs) -> In k (fields c)).
Proof.
  intros Hwf. split.
  - intros (s & H) k Hin. unfold __init__ in H.
    destruct (find _ kwargs) as [[k' v']|] eqn:F; [discriminate|].
    apply in_map_iff in Hin. destruct Hin as ([k0 v0] & <- & Hin).
    pose proof (find_none _ _ F _ Hin) as Hn. cbn [fst] in Hn.
    apply negb_false_iff in Hn. apply smem_In in Hn. exact Hn.
  - intros Hk. eexists. apply init_succeeds; assumption.
Qed.

(** *** The bundle *)

(** [HeliosOptions(canopy)] succeeds exactly when the canopy type is listed,
    has an entry of defaults, and the three tables of defaults use field
    names only; the bundle then remembers the canopy type.  A missing or
    unlisted canopy type raises [ValueError], a listed one without defaults
    [KeyError]. *)
Theorem bundle_construction (cfg : helios_config) (arg : option string) :
  ((exists o, HeliosOptions__init__ cfg arg = Ok o)
   <-> exists c d,
        arg = Some c
        /\ In c (canopy_types cfg)
        /\ sget c (canopy_parameters cfg) = Some d
        /\ (forall k, In k (map fst d) -> In k (fields CanopyParameters))
        /\ (forall k, In k (map fst (camera_parameters cfg)) -> In k (fields CameraParameters))
        /\ (forall k, In k (map fst (lidar_parameters cfg)) -> In k (fields LiDARParameters)))
  /\ (forall o, HeliosOptions__init__ cfg arg = Ok o -> arg = Some (_canopy o))
  /\ ((forall c, arg = Some c -> ~ In c (canopy_types cfg)) ->
      raises (HeliosOptions__init__ cfg arg) CValueError)
  /\ (forall c, arg = Some c -> In c (canopy_types cfg) ->
      sget c (canopy_parameters cfg) = None ->
      HeliosOptions__init__ cfg arg = Raise (KeyError c)).
Proof.
  assert (Hmem : forall c, existsb (String.eqb c) (canopy_types cfg) = true
                           <-> In c (canopy_types cfg)).
  { intros c. rewrite existsb_exists. split.
    - intros (x & Hin & E). apply String.eqb_eq in E. subst. exact Hin.
    - intros Hin. exists c. split; [exact Hin | apply String.eqb_refl]. }
  assert (Hinit : forall w kw,
             (exists s, __init__ (schema w) kw = Ok s)
             <-> (forall k, In k (map fst kw) -> In k (fields (schema w)))).
  { intros w kw. apply init_ok_iff, schema_wf. }
  unfold HeliosOptions__init__, _initialize_canopy.
  split; [|split; [|split]].
  - split.
    + intros (o & H). destruct arg as [c|]; [|discriminate].
      destruct (existsb (String.eqb c) (canopy_types cfg)) eqn:Ec;
        cbn [negb] in H; [|discriminate].
      destruct (sget c (canopy_parameters cfg)) as [d|] eqn:D; [|discriminate].
      destruct (__init__ CanopyParameters d) as [cp|] eqn:E1; [|discriminate].
      destruct (__init__ CameraParameters _) as [cam|] eqn:E2; [|discriminate].
      destruct (__init__ LiDARParameters _) as [lid|] eqn:E3; [|discriminate].
      exists c, d. repeat split; auto.
      * apply Hmem, Ec.
      * apply (Hinit canopy d). eauto.
      * apply (Hinit camera (camera_parameters cfg)). eauto.
      * apply (Hinit lidar (lidar_parameters cfg)). eauto.
    + intros (c & d & -> & Hc & D & K1 & K2 & K3).
      apply Hmem in Hc. rewrite Hc, D. cbn [negb].
      apply (Hinit canopy d) in K1. destruct K1 as [cp E1].
      apply (Hinit camera (camera_parameters cfg)) in K2. destruct K2 as [cam E2].
      apply (Hinit lidar (lidar_parameters cfg)) in K3. destruct K3 as [lid E3].
      cbn [schema] in E1, E2, E3. rewrite E1, E2, E3. cbn [bind]. eauto.
  - intros o H. apply (initialize_canopy_inv cfg arg o H).
  - intros Hn. destruct arg as [c|].
    + destruct (existsb (String.eqb c) (canopy_types cfg)) eqn:Ec.
      * exfalso. apply (Hn c eq_refl). apply Hmem, Ec.
      * cbn [negb]. eexists. split; reflexivity.
    + eexists. split; reflexivity.
  - intros c -> Hc D. apply Hmem in Hc. rewrite Hc, D. reflexivity.
Qed.

(** An assignment through one view is read back through the bundle and
    leaves the two other stores and the canopy type untouched. *)
Theorem bundle_assignment_is_local (o o' : HeliosOptions) (w : view)
        (key : string) (v : value) :
  assign o w key v = Ok o' ->
  getattr (get_view o' w) key = Ok v
  /\ _canopy o' = _canopy o
  /\ (forall w', w' <> w -> get_view o' w' = get_view o w')
  /\ forall key', key' <> key -> getattr (get_view o' w) key' = getattr (get_view o w) key'.
Proof.
  unfold assign. destruct (__setattr__ (get_view o w) key v) as [s|e] eqn:E;
    cbn [bind]; [|discriminate].
  intros H. injection H as <-.
  apply setattr_ok_is_object_setattr in E. subst s.
  repeat split.
  - destruct w; apply getattr_object_setattr.
  - destruct w; reflexivity.
  - intros w' Hne. destruct w, w'; try reflexivity; contradiction.
  - intros key' Hne. destruct w; apply getattr_object_setattr_other; congruence.
Qed.

Lemma bundle_assignment_is_local_witness :
  assign sample_options lidar "thetaMax" (VInt 90)
  = Ok {| _canopy := _canopy sample_options;
          _canopy_parameters := _canopy_parameters sample_options;
          _camera_parameters := _camera_parameters sample_options;
          _lidar_parameters :=
            object_setattr (_lidar_parameters sample_options) "thetaMax" (VInt 90) |}
  /\ getattr (object_setattr (_lidar_parameters sample_options) "thetaMax" (VInt 90))
             "thetaMax" = Ok (VInt 90).
Proof.
  split; [vm_compute; reflexivity|].
  refine (proj1 (bundle_assignment_is_local sample_options
                   {| _canopy := _canopy sample_options;
                      _canopy_parameters := _canopy_parameters sample_options;
                      _camera_parameters := _camera_parameters sample_options;
                      _lidar_parameters :=
                        object_setattr (_lidar_parameters sample_options)
                                       "thetaMax" (VInt 90) |}
                   lidar "thetaMax" (VInt 90) _)).
  vm_compute; reflexivity.
Defined.

(** On a field declared as a number, a string or a path, an assignment on a
    constructed store, after any earlier assignments, succeeds exactly when
    the value is an instance of the declared type; it is then read back, and
    otherwise the mismatch [TypeError] naming annotation, field and value is
    raised and nothing else. *)
Theorem checked_field_assignment (w : view) (kwargs : list (string * value))
        (s0 : instance) (ms : list (string * value)) (key : string) (a : annot)
        (v : value) :
  __init__ (schema w) kwargs = Ok s0 ->
  sget key (__annotations__ (schema w)) = Some a ->
  (forall b, a <> ListOf b) ->
  exists ok,
    isinstance v a = Ok ok
    /\ if ok
       then exists s', __setattr__ (assigns s0 ms) key v = Ok s'
                       /\ getattr s' key = Ok v
       else __setattr__ (assigns s0 ms) key v = Raise (TypeError (Mismatch a key v)).
Proof.
  intros H Ha Hl. pose proof (schema_wf w) as Hwf.
  apply (init_built _ _ _ Hwf) in H. subst s0.
  assert (Hs : sealed (schema w) (assigns (built (schema w) kwargs) ms))
    by (apply assigns_sealed; [exact Hwf | apply built_sealed]).
  rewrite (setattr_field _ _ Hs key a v Ha).
  destruct a; try (exfalso; eapply Hl; reflexivity); cbn [isinstance];
    eexists; (split; [reflexivity|]); cbn [bind];
    match goal with
    | |- if ?b then _ else _ =>
        destruct b; cbn [negb]; [|reflexivity];
        eexists; split; [reflexivity | apply getattr_object_setattr]
    end.
Qed.

Lemma checked_field_assignment_witness :
  (__init__ (schema canopy) (defaults_of sample_config "VSPGrapevine" canopy)
   = Ok sample_canopy_store
   /\ sget "leaf_color" (__annotations__ (schema canopy)) = Some Str
   /\ forall b, Str <> ListOf b)
  /\ exists ok,
      isinstance (VInt 3) Str = Ok ok
      /\ if ok
         then exists s', __setattr__ (assigns sample_canopy_store []) "leaf_color" (VInt 3)
                         = Ok s'
                         /\ getattr s' "leaf_color" = Ok (VInt 3)
         else __setattr__ (assigns sample_canopy_store []) "leaf_color" (VInt 3)
              = Raise (TypeError (Mismatch Str "leaf_color" (VInt 3))).
Proof.
  split; [repeat split; try (vm_compute; reflexivity); discriminate|].
  apply (checked_field_assignment canopy
           (defaults_of sample_config "VSPGrapevine" canopy) sample_canopy_store
           [] "leaf_color" Str (VInt 3));
    try (vm_compute; reflexivity); discriminate.
Defined.

(** The seal cannot be lifted by assignment: on a constructed store, after
    any assignments, [_block_new_attributes] reads [True], and assigning to
    it raises [KeyError] with the bare name, whatever the value. *)
Theorem seal_cannot_be_lifted (w : view) (kwargs : list (string * value))
        (s0 : instance) (ms : list (string * value)) (v : value) :
  __init__ (schema w) kwargs = Ok s0 ->
  getattr (assigns s0 ms) seal = Ok (VBool true)
  /\ __setattr__ (assigns s0 ms) seal v = Raise (KeyError seal).
Proof.
  intros H. pose proof (schema_wf w) as Hwf.
  apply (init_built _ _ _ Hwf) in H. subst s0.
  assert (Hs : sealed (schema w) (assigns (built (schema w) kwargs) ms))
    by (apply assigns_sealed; [exact Hwf | apply built_sealed]).
  split; [|apply (setattr_seal (schema w)); assumption].
  assert (G : forall ms s, sealed (schema w) s -> getattr s seal = Ok (VBool true) ->
                           getattr (assigns s ms) seal = Ok (VBool true)).
  { clear ms Hs. intros ms. induction ms as [|[key' v'] ms IH]; intros s Hs Hg;
      cbn [assigns]; [exact Hg|].
    destruct (__setattr__ s key' v') as [s'|e] eqn:E; [|apply IH; assumption].
    apply IH; [eapply setattr_keeps_sealed; eauto|].
    destruct (String.eqb_spec key' seal) as [->|Hne].
    - rewrite (setattr_seal (schema w) s Hwf Hs) in E. discriminate.
    - apply setattr_ok_is_object_setattr in E. subst s'.
      rewrite getattr_object_setattr_other by exact Hne. exact Hg. }
  apply G; [apply built_sealed|].
  unfold getattr, built. cbn [__dict__].
  pose proof (fields_not_in_built_prefix (schema w) kwargs (proj2 Hwf)) as Hm.
  unfold smem, dict_mem in Hm. fold (@sget value) in Hm.
  generalize dependent (map (fun f => (f, kwarg kwargs f)) (fields (schema w))).
  intros l Hm. unfold sget in *. induction l as [|[k0 v0] l IH]; cbn in *.
  - reflexivity.
  - destruct (String.eqb k0 seal); [discriminate | exact (IH Hm)].
Qed.

Lemma seal_cannot_be_lifted_witness :
  __init__ (schema camera) (camera_parameters sample_config)
  = Ok (_camera_parameters sample_options)
  /\ (getattr (assigns (_camera_parameters sample_options) [(seal, VBool false)]) seal
      = Ok (VBool true)
      /\ __setattr__ (assigns (_camera_parameters sample_options) [(seal, VBool false)])
                     seal (VBool false)
         = Raise (KeyError seal)).
Proof.
  split; [vm_compute; reflexivity|].
  apply (seal_cannot_be_lifted camera (camera_parameters sample_config)
           (_camera_parameters sample_options) [(seal, VBool false)] (VBool false)).
  vm_compute; reflexivity.
Defined.

End StoreProperties.

(** ** Further properties of the metadata registry *)

Module RegistryProperties.
Import Metadata MetadataProofs.

Lemma smem_sget {V : Type} (d : list (string * V)) (k : string) :
  smem k d = true <-> exists v, sget k d = Some v.
Proof.
  unfold smem, dict_mem. fold (@sget V).
  destruct (sget k d) as [v|]; split; eauto; try discriminate.
  intros (v & H). discriminate.
Qed.

Lemma smem_sget_none {V : Type} (d : list (string * V)) (k : string) :
  smem k d = false <-> sget k d = None.
Proof.
  unfold smem, dict_mem. fold (@sget V).
  destruct (sget k d) as [v|]; split; auto; discriminate.
Qed.

(** What [store_records] does, by cases on the two tables. *)
Lemma store_records_cases (source_info citation_info : list (string * list (string * value)))
      (n : string) :
  smem n source_info = true ->
  (loadable source_info citation_info n = true
   /\ store_records source_info citation_info n = Ok (loaded source_info citation_info n))
  \/ (loadable source_info citation_info n = false
      /\ ((smem n citation_info = false
           /\ store_records source_info citation_info n = Raise (KeyError n))
          \/ exists k, (k = "dataset" \/ k = "self")
                       /\ store_records source_info citation_info n
                          = Raise (TypeError (MultipleValues k)))).
Proof.
  intros Hs. apply smem_sget in Hs. destruct Hs as [rec Hrec].
  unfold loadable, store_records, loaded, subscript.
  rewrite Hrec. cbn [bind].
  destruct (MetadataDict_init_cases rec n) as [(Kr & ->)|(Kr & k & Hk & ->)];
    rewrite Kr; cbn [bind andb].
  - destruct (sget n citation_info) as [c|] eqn:Hc; cbn [bind].
    + destruct (MetadataDict_init_cases c n) as [(Kc & ->)|(Kc & k & Hk & ->)];
        rewrite Kc; cbn [bind].
      * left. split; reflexivity.
      * right. split; [reflexivity|]. right. eauto.
    + right. split; [reflexivity|]. left. split; [|reflexivity].
      apply smem_sget_none, Hc.
  - right. split; [destruct (sget n citation_info); reflexivity|]. right. eauto.
Qed.

Lemma load_source_info_resolve (source_info citation_info : list (string * list (string * value)))
      (arg : name_arg) :
  match resolve source_info (given_name arg) with
  | Some n =>
      smem n source_info = true
      /\ snd (DatasetMetadata__init__ source_info citation_info arg)
         = store_records source_info citation_info n
      /\ ((n = given_name arg
           /\ fst (DatasetMetadata__init__ source_info citation_info arg) = [])
          \/ (n = replace (given_name arg) "-" "_" /\ n <> given_name arg
              /\ fst (DatasetMetadata__init__ source_info citation_info arg)
                 = ["Interpreted dataset '" ++ given_name arg ++ "' as '"
                    ++ replace (given_name arg) "-" "_" ++ ".'"]))
  | None =>
      DatasetMetadata__init__ source_info citation_info arg
      = ([], Raise (ValueError
                      (maybe_you_meant (given_name arg)
                         ("Received invalid public source: '" ++ given_name arg ++ "'.")
                         (map fst source_info))))
  end.
Proof.
  unfold resolve, DatasetMetadata__init__, _load_source_info.
  fold (given_name arg).
  destruct (smem (given_name arg) source_info) eqn:E1; cbn [negb].
  - split; [exact E1|]. split; [reflexivity|]. left. split; reflexivity.
  - destruct (smem (replace (given_name arg) "-" "_") source_info) eqn:E2; cbn [negb].
    + split; [exact E2|]. split; [reflexivity|]. right.
      split; [reflexivity|]. split; [|reflexivity].
      intros H. rewrite H in E2. congruence.
    + reflexivity.
Qed.

(** What holds of every registry that construction returns: its name is a
    key of both tables, and is the given name or, when that is not a key
    itself, the given name with underscores for hyphens, the notice being
    logged in the second case only; its two dictionaries are the records of
    the tables under that name, tagged with that name; and the record has no
    entry called [dataset] or [self]. *)
Theorem constructed_registry_invariants
        (source_info citation_info : list (string * list (string * value)))
        (arg : name_arg) (log : list string) (r : DatasetMetadata) :
  DatasetMetadata__init__ source_info citation_info arg = (log, Ok r) ->
  In (name r) (map fst source_info)
  /\ In (name r) (map fst citation_info)
  /\ sget (name r) source_info = Some (items (data r))
  /\ sget (name r) citation_info = Some (items (_citation_meta r))
  /\ _dataset (data r) = name r
  /\ _dataset (_citation_meta r) = name r
  /\ smem "dataset" (items (data r)) = false
  /\ smem "self" (items (data r)) = false
  /\ ((name r = given_name arg /\ log = [])
      \/ (name r = replace (given_name arg) "-" "_"
          /\ smem (given_name arg) source_info = false
          /\ log = ["Interpreted dataset '" ++ given_name arg ++ "' as '"
                    ++ replace (given_name arg) "-" "_" ++ ".'"])).
Proof.
  intros H. pose proof (load_source_info_resolve source_info citation_info arg) as R.
  rewrite H in R. cbn [fst snd] in R.
  destruct (resolve source_info (given_name arg)) as [n|] eqn:Rn; [|discriminate].
  destruct R as (Hn & Hrec & Hlog).
  destruct (store_records_cases source_info citation_info n Hn)
    as [(L & E)|(_ & [(_ & E)|(k & _ & E)])]; rewrite E in Hrec; try discriminate.
  injection Hrec as ->. unfold loadable in L.
  destruct (sget n source_info) as [rec|] eqn:Hs; [|discriminate].
  destruct (sget n citation_info) as [c|] eqn:Hc; [|discriminate].
  apply andb_true_iff in L. destruct L as [L1 _]. unfold keywords_ok in L1.
  apply andb_true_iff in L1. destruct L1 as [L1 L2].
  apply negb_true_iff in L1, L2.
  unfold data, name, loaded. cbn [_name _metadata _citation_meta items _dataset].
  rewrite Hs, Hc.
  repeat split; auto.
  - apply smem_In. exact Hn.
  - apply smem_In, smem_sget. eauto.
  - destruct Hlog as [(-> & Hl)|(-> & Hne & Hl)]; [left; auto|right].
    repeat split; auto.
    unfold resolve in Rn.
    destruct (smem (given_name arg) source_info); [|reflexivity].
    injection Rn as Rn. congruence.
Qed.

Lemma constructed_registry_invariants_witness :
  DatasetMetadata__init__ sample_sources sample_citations (ByName "apple-flower")
  = (["Interpreted dataset 'apple-flower' as 'apple_flower.'"], Ok apple_flower)
  /\ sget (name apple_flower) sample_sources = Some (items (data apple_flower)).
Proof.
  split; [reflexivity|].
  refine (proj1 (proj2 (proj2
            (constructed_registry_invariants sample_sources sample_citations
               (ByName "apple-flower")
               ["Interpreted dataset 'apple-flower' as 'apple_flower.'"]
               apple_flower _)))).
  reflexivity.
Defined.

(** The outcome of construction from a name, by cases: it succeeds exactly
    when the name resolves to a key of the source table whose two records
    are found and have no entry called [dataset] or [self]; a name that does
    not resolve raises [ValueError]; a resolved name raises [KeyError] with
    the bare name when the citation table lacks it, and [TypeError] when a
    record has an entry called [dataset] or [self].  No other error
    arises. *)
Theorem construction_outcome
        (source_info citation_info : list (string * list (string * value)))
        (d : string) :
  ((exists r, snd (DatasetMetadata__init__ source_info citation_info (ByName d)) = Ok r)
   <-> exists n, resolve source_info d = Some n
                 /\ loadable source_info citation_info n = true)
  /\ (forall e,
        snd (DatasetMetadata__init__ source_info citation_info (ByName d)) = Raise e ->
        (resolve source_info d = None /\ class_of e = CValueError)
        \/ (exists n, resolve source_info d = Some n
                      /\ loadable source_info citation_info n = false
                      /\ ((e = KeyError n /\ smem n citation_info = false)
                          \/ e = TypeError (MultipleValues "dataset")
                          \/ e = TypeError (MultipleValues "self")))).
Proof.
  pose proof (load_source_info_resolve source_info citation_info (ByName d)) as R.
  cbn [given_name] in R.
  destruct (resolve source_info d) as [n|] eqn:Rn.
  - destruct R as (Hn & Hrec & _). rewrite Hrec.
    destruct (store_records_cases source_info citation_info n Hn)
      as [(L & E)|(L & [(Hc & E)|(k & Hk & E)])]; rewrite E.
    + split; [split; eauto|]. intros e He. discriminate.
    + split.
      * split; [intros (r & Hr); discriminate|].
        intros (n' & Hn' & L'). injection Hn' as <-. congruence.
      * intros e He. injection He as <-. right. exists n. auto.
    + split.
      * split; [intros (r & Hr); discriminate|].
        intros (n' & Hn' & L'). injection Hn' as <-. congruence.
      * intros e He. injection He as <-. right. exists n.
        repeat split; auto. destruct Hk as [->| ->]; auto.
  - rewrite R. cbn [snd]. split.
    + split; [intros (r & Hr); discriminate | intros (n & Hn & _); discriminate].
    + intros e He. injection He as <-. left. auto.
Qed.

(** A record with an entry called [self], or called [dataset], cannot be
    loaded. *)
Example colliding_entry_is_refused :
  snd (DatasetMetadata__init__ [("soil_map", [("n_images", VInt 3); ("self", VInt 1)])]
         [("soil_map", sample_citation "" "")] (ByName "soil_map"))
  = Raise (TypeError (MultipleValues "self"))
  /\ snd (DatasetMetadata__init__ [("soil_map", [("dataset", VStr "x"); ("self", VInt 1)])]
            [("soil_map", sample_citation "" "")] (ByName "soil_map"))
     = Raise (TypeError (MultipleValues "dataset")).
Proof. split; reflexivity. Qed.

(** Construction from a registry gives that registry back: built from any
    registry that construction returned, with the same tables, the new
    registry is the old one and nothing is logged. *)
Theorem construction_from_registry
        (source_info citation_info : list (string * list (string * value)))
        (arg : name_arg) (log : list string) (r : DatasetMetadata) :
  DatasetMetadata__init__ source_info citation_info arg = (log, Ok r) ->
  DatasetMetadata__init__ source_info citation_info (ByInfo r) = ([], Ok r).
Proof.
  intros H. pose proof (load_source_info_resolve source_info citation_info arg) as R.
  rewrite H in R. cbn [fst snd] in R.
  destruct (resolve source_info (given_name arg)) as [n|]; [|discriminate].
  destruct R as (Hn & Hrec & _).
  assert (Hname : name r = n).
  { symmetry in Hrec. apply store_records_inv in Hrec. apply Hrec. }
  unfold DatasetMetadata__init__, _load_source_info.
  rewrite Hname, Hn. cbn [negb]. rewrite <- Hrec. reflexivity.
Qed.

Lemma construction_from_registry_witness :
  DatasetMetadata__init__ sample_sources sample_citations (ByName "apple-flower")
  = (["Interpreted dataset 'apple-flower' as 'apple_flower.'"], Ok apple_flower)
  /\ DatasetMetadata__init__ sample_sources sample_citations (ByInfo apple_flower)
     = ([], Ok apple_flower).
Proof.
  split; [reflexivity|].
  apply (construction_from_registry sample_sources sample_citations (ByName "apple-flower")
           ["Interpreted dataset 'apple-flower' as 'apple_flower.'"]).
  reflexivity.
Defined.

(** *** Accessors on incomplete or misshapen records *)

(** An accessor whose entry is missing from the record raises the
    [KeyError] of [_MetadataDict], whose argument is the sentence naming the
    dataset and the missing entry, never the bare key: for every accessor
    of the registry, [tasks] reporting [ml_task] before [ag_task]. *)
Theorem missing_entry_is_reported (int_float : value -> result Z) (r : DatasetMetadata) :
  (sget "n_images" (items (_metadata r)) = None -> num_images int_float r = Raise (missing_metadata (_dataset (_metadata r)) "n_images"))
  /\ (sget "ml_task" (items (_metadata r)) = None -> tasks r = Raise (missing_metadata (_dataset (_metadata r)) "ml_task"))
  /\ (sget "ml_task" (items (_metadata r)) <> None ->
      sget "ag_task" (items (_metadata r)) = None -> tasks r = Raise (missing_metadata (_dataset (_metadata r)) "ag_task"))
  /\ (sget "location" (items (_metadata r)) = None ->
      location r = Raise (missing_metadata (_dataset (_metadata r)) "location"))
  /\ (sget "stats" (items (_metadata r)) = None ->
      image_stats r = Raise (missing_metadata (_dataset (_metadata r)) "stats"))
  /\ (sget "sensor_modality" (items (_metadata r)) = None ->
      sensor_modality r = Raise (missing_metadata (_dataset (_metadata r)) "sensor_modality"))
  /\ (sget "input_data_format" (items (_metadata r)) = None ->
      image_format r = Raise (missing_metadata (_dataset (_metadata r)) "input_data_format"))
  /\ (sget "annotation_format" (items (_metadata r)) = None ->
      annotation_format r = Raise (missing_metadata (_dataset (_metadata r)) "annotation_format"))
  /\ (sget "docs_url" (items (_metadata r)) = None ->
      docs r = Raise (missing_metadata (_dataset (_metadata r)) "docs_url"))
  /\ (sget "external_image_sources" (items (_metadata r)) = None ->
      external_image_sources r = Raise (missing_metadata (_dataset (_metadata r)) "external_image_sources"))
  /\ (sget "classes" (items (_metadata r)) = None ->
      num_to_class int_float r = Raise (missing_metadata (_dataset (_metadata r)) "classes"))
  /\ (sget "classes" (items (_metadata r)) = None ->
      class_to_num int_float r = Raise (missing_metadata (_dataset (_metadata r)) "classes"))
  /\ (sget "classes" (items (_metadata r)) = None ->
      classes r = Raise (missing_metadata (_dataset (_metadata r)) "classes"))
  /\ (sget "classes" (items (_metadata r)) = None ->
      num_classes r = Raise (missing_metadata (_dataset (_metadata r)) "classes"))
  /\ (sget "license" (items (_citation_meta r)) = None ->
      license r = Raise (missing_metadata (_dataset (_citation_meta r)) "license"))
  /\ (sget "citation" (items (_citation_meta r)) = None ->
      citation r = Raise (missing_metadata (_dataset (_citation_meta r)) "citation")).
Proof.
  assert (C : sget "classes" (items (_metadata r)) = None ->
              classes r = Raise (missing_metadata (_dataset (_metadata r)) "classes")).
  { intros H. apply attribute_Raise; [|discriminate].
    unfold classes_fget. rewrite (getitem_missing _ _ H). reflexivity. }
  unfold num_images, tasks, sensor_modality, image_format,
    annotation_format, docs, external_image_sources, license, citation.
  repeat match goal with |- _ /\ _ => split end;
    try (intros H; rewrite (getitem_missing _ _ H); reflexivity);
    try exact C;
    try (intros H; apply attribute_Raise; [|discriminate];
         unfold location_fget, image_stats_fget, num_to_class_fget, class_to_num_fget,
           num_classes_fget;
         rewrite ?(C H), ?(getitem_missing _ _ H); reflexivity).
  intros H1 H2.
  destruct (sget "ml_task" (items (_metadata r))) as [v|] eqn:E; [|contradiction].
  rewrite (getitem_present _ _ _ E), (getitem_missing _ _ H2). reflexivity.
Qed.

Lemma missing_entry_is_reported_witness :
  sget "docs_url" (items (_metadata apple_flower)) = None
  /\ docs apple_flower
     = Raise (KeyError ("The dataset 'apple_flower' is missing metadata 'docs_url'. "
                        ++ "Please bring this issue to the attention of the AgML team.")).
Proof.
  split; [reflexivity|].
  pose proof (missing_entry_is_reported int_float_plain apple_flower)
    as (_ & _ & _ & _ & _ & _ & _ & _ & H & _).
  apply H. reflexivity.
Defined.

(** [location] and [image_stats] pair the entries of their mapping by
    position, not by key: a mapping of exactly two entries gives the value of
    the first as continent (mean) and of the second as country (std)
    whatever the two keys are, and a mapping of any other size raises
    [ValueError].  On an entry that is no mapping the getter raises
    [AttributeError] and the property is answered by [__getattr__]:
    [location] reads as the entry itself; [image_stats], whose entry is
    called [stats], reads as the entry called [image_stats] when the record
    has one and raises [AttributeError] otherwise. *)
Theorem pairs_are_read_by_position (r : DatasetMetadata) (entry : value) :
  (sget "location" (items (_metadata r)) = Some entry ->
   match entry with
   | VDict [(_, v1); (_, v2)] =>
       location r = Ok (inl {| continent := v1; country := v2 |})
   | VDict _ => raises (location r) CValueError
   | _ => location r = Ok (inr entry)
   end)
  /\ (sget "stats" (items (_metadata r)) = Some entry ->
      match entry with
      | VDict [(_, v1); (_, v2)] => image_stats r = Ok (inl {| mean := v1; std := v2 |})
      | VDict _ => raises (image_stats r) CValueError
      | _ =>
          match sget "image_stats" (items (_metadata r)) with
          | Some v => image_stats r = Ok (inr v)
          | None => raises (image_stats r) CAttributeError
          end
      end).
Proof.
  split; intros H.
  - assert (F : forall msg, location_fget r = Raise (AttributeError msg) ->
                            location r = Ok (inr entry)).
    { intros msg G. pose proof (attribute_fallback r "location" _ _ G) as Fb.
      rewrite H in Fb. exact Fb. }
    unfold location.
    destruct entry as [| | | | | |d|];
      try (eapply F; unfold location_fget; rewrite (getitem_present _ _ _ H);
           reflexivity).
    unfold location_fget. rewrite (getitem_present _ _ _ H). cbn [values bind].
    destruct d as [|[k1 v1] [|[k2 v2] [|[k3 v3] d]]]; cbn;
      try reflexivity; eexists; split; reflexivity.
  - assert (F : forall msg, image_stats_fget r = Raise (AttributeError msg) ->
                            match sget "image_stats" (items (_metadata r)) with
                            | Some v => image_stats r = Ok (inr v)
                            | None => raises (image_stats r) CAttributeError
                            end).
    { intros msg G. exact (attribute_fallback r "image_stats" _ _ G). }
    destruct entry as [| | | | | |d|];
      try (eapply F; unfold image_stats_fget; rewrite (getitem_present _ _ _ H);
           reflexivity).
    unfold image_stats, image_stats_fget.
    rewrite (getitem_present _ _ _ H). cbn [values bind].
    destruct d as [|[k1 v1] [|[k2 v2] [|[k3 v3] d]]]; cbn;
      try reflexivity; eexists; split; reflexivity.
Qed.

Lemma pairs_are_read_by_position_witness :
  sget "location" (items (_metadata misplaced)) = Some (VStr "USA")
  /\ location misplaced = Ok (inr (VStr "USA")).
Proof.
  split; [reflexivity|].
  apply (proj1 (pairs_are_read_by_position misplaced (VStr "USA"))).
  reflexivity.
Defined.

(** The three cases on samples: two entries, a [str], and a [stats] entry
    that is a [str] in a record without an entry called [image_stats]. *)
Example pairs_on_samples :
  location apple_flower
  = Ok (inl {| continent := VStr "North America"; country := VStr "USA" |})
  /\ location misplaced = Ok (inr (VStr "USA"))
  /\ image_stats misplaced
     = Raise (AttributeError "Received invalid info parameter: 'image_stats'.").
Proof. repeat split; reflexivity. Qed.

(** *** Attributes that the class does not define *)

(** Once the ordinary lookup has failed, [__getattr__] answers from the
    record of the registry: for a registry that construction returned, any
    entry that the source table has for the dataset is returned as it is in
    the table, and a name that the record lacks raises [AttributeError],
    never [KeyError]. *)
Theorem record_entries_are_attributes {A : Type}
        (source_info citation_info : list (string * list (string * value)))
        (arg : name_arg) (log : list string) (r : DatasetMetadata)
        (key : string) (failure : exn) :
  DatasetMetadata__init__ source_info citation_info arg = (log, Ok r) ->
  exists record,
    sget (name r) source_info = Some record
    /\ match sget key record with
       | Some v => DatasetMetadata__getattr__ (A := A) r key (Raise failure) = Ok (inr v)
       | None => raises (DatasetMetadata__getattr__ (A := A) r key (Raise failure))
                        CAttributeError
       end.
Proof.
  intros H.
  assert (Hrec : sget (name r) source_info = Some (items (_metadata r))).
  { pose proof (load_source_info_resolve source_info citation_info arg) as R.
    rewrite H in R. cbn [fst snd] in R.
    destruct (resolve source_info (given_name arg)) as [n|]; [|discriminate].
    destruct R as (_ & Hrec & _). symmetry in Hrec.
    apply store_records_inv in Hrec. destruct Hrec as (Hn & Hs & _).
    unfold name. rewrite Hn. exact Hs. }
  exists (items (_metadata r)). split; [exact Hrec|].
  unfold DatasetMetadata__getattr__, smem, dict_mem. fold (@sget value).
  destruct (sget key (items (_metadata r))) as [v|] eqn:E.
  - rewrite (getitem_present _ _ _ E). reflexivity.
  - eexists. split; reflexivity.
Qed.

Lemma record_entries_are_attributes_witness :
  DatasetMetadata__init__ sample_sources sample_citations (ByName "apple_flower")
  = ([], Ok apple_flower)
  /\ exists record,
      sget (name apple_flower) sample_sources = Some record
      /\ match sget "ag_task" record with
         | Some v => DatasetMetadata__getattr__ (A := unit) apple_flower "ag_task"
                       (Raise (AttributeError "ag_task")) = Ok (inr v)
         | None => raises (DatasetMetadata__getattr__ (A := unit) apple_flower "ag_task"
                             (Raise (AttributeError "ag_task"))) CAttributeError
         end.
Proof.
  split; [reflexivity|].
  apply (record_entries_are_attributes (A := unit) sample_sources sample_citations
           (ByName "apple_flower") [] apple_flower "ag_task" (AttributeError "ag_task")).
  reflexivity.
Defined.

(** *** Flat class mappings *)

(** [num_to_class] on a flat [classes] mapping: it returns exactly when
    [int(float(.))] accepts every key; the mapping returned has pairwise
    distinct indices, no more entries than [classes] has, and each of its
    pairs (i, label) comes from an entry of the table whose key is coerced
    to i. *)
Theorem num_to_class_of_flat_classes (int_float : value -> result Z)
        (r : DatasetMetadata) (d : list (string * value)) :
  sget "classes" (items (_metadata r)) = Some (VDict d) ->
  has_nested_dicts (VDict d) = false ->
  ((exists m, num_to_class int_float r = Ok (inl (Flat m)))
   <-> (forall k, In k (map fst d) -> exists n, int_float (VStr k) = Ok n))
  /\ forall m,
      num_to_class int_float r = Ok (inl (Flat m)) ->
      NoDup (map fst m)
      /\ (length m <= length d)%nat
      /\ forall i label, In (i, label) m ->
           exists k, In (k, label) d /\ int_float (VStr k) = Ok i.
Proof.
  intros Hc Hflat.
  assert (G : num_to_class_fget int_float r
              = (nums <- mapM (fun i => int_float (VStr i)) (map fst d) ;;
                 Ok (Flat (dict_of Z.eqb (combine nums (map snd d)))))).
  { unfold num_to_class_fget. rewrite (getitem_present _ _ _ Hc). cbn [bind].
    rewrite Hflat. reflexivity. }
  assert (Lift : forall m, num_to_class int_float r = Ok (inl (Flat m))
                           <-> num_to_class_fget int_float r = Ok (Flat m)).
  { intros m. split; [apply attribute_Ok_inl | apply attribute_Ok]. }
  split.
  - rewrite <- (mapM_Ok_iff (fun i => int_float (VStr i)) (map fst d)). split.
    + intros (m & H). apply Lift in H. rewrite G in H.
      destruct (mapM _ (map fst d)) as [nums|e]; [eauto | discriminate].
    + intros (nums & E). eexists. apply Lift. rewrite G, E. reflexivity.
  - intros m H. apply Lift in H. rewrite G in H.
    destruct (mapM _ (map fst d)) as [nums|e] eqn:E; cbn [bind] in H; [|discriminate].
    injection H as <-.
    destruct (dict_of_NoDup_length (combine nums (map snd d))) as [N L].
    split; [exact N|]. split.
    + rewrite length_combine, length_map in L. lia.
    + intros i label Hin. apply dict_of_In_Z in Hin.
      eapply combine_from_table; [|exact Hin]. apply mapM_Forall2, E.
Qed.

Lemma num_to_class_of_flat_classes_witness :
  (sget "classes" (items (_metadata weed_survey))
   = Some (VDict [("0", VStr "weed"); ("1", VStr "weed")])
   /\ has_nested_dicts (VDict [("0", VStr "weed"); ("1", VStr "weed")]) = false)
  /\ ((exists m, num_to_class int_float_plain weed_survey = Ok (inl (Flat m)))
      <-> (forall k, In k (map fst [("0", VStr "weed"); ("1", VStr "weed")]) ->
                     exists n, int_float_plain (VStr k) = Ok n)).
Proof.
  split; [split; reflexivity|].
  apply (num_to_class_of_flat_classes int_float_plain weed_survey
           [("0", VStr "weed"); ("1", VStr "weed")]); reflexivity.
Defined.

(** On [collapsed_pair] the keys 1 and 1.0 give one entry where [classes]
    has two. *)
Example collapsed_pair_has_one_index :
  num_to_class int_float_plain collapsed_pair = Ok (inl (Flat [(1%Z, VStr "grape")]))
  /\ num_classes collapsed_pair = Ok (inl 2%nat).
Proof. split; reflexivity. Qed.

(** On a flat [classes] mapping whose keys are coerced to pairwise distinct
    indices and whose labels are hashable and pairwise distinct, the two
    class mappings are the pairs of the table in table order, [classes] is
    the list of labels, [num_classes] their number, and the index that
    [class_to_num] gives a label leads back to that label in
    [num_to_class]. *)
Theorem flat_classes_with_distinct_indices_and_labels (int_float : value -> result Z)
        (r : DatasetMetadata) (d : list (string * value)) (nums : list Z) :
  sget "classes" (items (_metadata r)) = Some (VDict d) ->
  has_nested_dicts (VDict d) = false ->
  nums_of int_float (map fst d) = Ok nums ->
  NoDup nums ->
  forallb hashable (map snd d) = true ->
  distinct_labels (map snd d) = true ->
  num_to_class int_float r = Ok (inl (Flat (combine nums (map snd d))))
  /\ class_to_num int_float r = Ok (inl (Flat (combine (map snd d) nums)))
  /\ classes r = Ok (inl (ClassList (map snd d)))
  /\ num_classes r = Ok (inl (length d))
  /\ forall label i,
      In (label, i) (combine (map snd d) nums) ->
      dict_get Z.eqb i (combine nums (map snd d)) = Some label.
Proof.
  intros Hc Hflat Hn Hnd Hh Hd.
  destruct (flat_getters int_float r d nums Hc Hflat Hn) as (Hlen & Hn2c & Hc2n).
  specialize (Hc2n Hh Hd).
  assert (Hkeys : map fst (combine nums (map snd d)) = nums)
    by (apply combine_fst_same_length; rewrite length_map; exact Hlen).
  rewrite dict_of_distinct_keys in Hn2c by (rewrite Hkeys; exact Hnd).
  assert (Hcl : classes r = Ok (inl (ClassList (map snd d)))).
  { apply attribute_Ok. unfold classes_fget.
    rewrite (getitem_present _ _ _ Hc). cbn [bind]. rewrite Hflat. reflexivity. }
  split; [apply attribute_Ok, Hn2c|]. split; [apply attribute_Ok, Hc2n|].
  split; [exact Hcl|]. split.
  - apply attribute_Ok. unfold num_classes_fget. rewrite Hcl. cbn [bind].
    rewrite length_map. reflexivity.
  - intros label i Hin. apply In_combine_swap in Hin.
    apply dict_get_distinct_keys; [rewrite Hkeys; exact Hnd | exact Hin].
Qed.

Lemma flat_classes_with_distinct_indices_and_labels_witness :
  (sget "classes" (items (_metadata fruit_pair)) = Some (VDict fruit_classes)
   /\ has_nested_dicts (VDict fruit_classes) = false
   /\ nums_of int_float_plain (map fst fruit_classes) = Ok [0%Z; 1%Z]
   /\ NoDup [0%Z; 1%Z]
   /\ forallb hashable (map snd fruit_classes) = true
   /\ distinct_labels (map snd fruit_classes) = true)
  /\ num_to_class int_float_plain fruit_pair
     = Ok (inl (Flat (combine [0%Z; 1%Z] (map snd fruit_classes))))
  /\ class_to_num int_float_plain fruit_pair
     = Ok (inl (Flat (combine (map snd fruit_classes) [0%Z; 1%Z])))
  /\ classes fruit_pair = Ok (inl (ClassList (map snd fruit_classes)))
  /\ num_classes fruit_pair = Ok (inl (length fruit_classes))
  /\ forall label i,
      In (label, i) (combine (map snd fruit_classes) [0%Z; 1%Z]) ->
      dict_get Z.eqb i (combine [0%Z; 1%Z] (map snd fruit_classes)) = Some label.
Proof.
  assert (N : NoDup [0%Z; 1%Z]).
  { constructor; [intros [E|[]]; discriminate|].
    constructor; [intros [] | constructor]. }
  split; [repeat split; try reflexivity; exact N|].
  apply (flat_classes_with_distinct_indices_and_labels int_float_plain
           fruit_pair fruit_classes [0%Z; 1%Z]); try reflexivity; exact N.
Defined.

(** *** Class mappings grouped by class type *)

Lemma NoDup_app_fresh (l : list string) (k : string) (ks : list string) :
  NoDup (l ++ k :: ks) -> ~ In k l /\ NoDup ((l ++ [k]) ++ ks).
Proof.
  intros H. split.
  - apply NoDup_remove_2 in H. intros Hin. apply H. apply in_or_app. auto.
  - rewrite <- app_assoc. exact H.
Qed.

Lemma classes_loop_all_dicts (its : list (string * value)) :
  forall out,
    NoDup (map fst out ++ map fst its) ->
    forallb is_dict (map snd its) = true ->
    classes_loop its out
    = Ok (out ++ map (fun kv => (fst kv, labels_of (snd kv))) its)%list.
Proof.
  induction its as [|[k e] its IH]; intros out Hnd Hd; cbn [classes_loop map].
  - rewrite app_nil_r. reflexivity.
  - cbn [map fst snd forallb] in Hnd, Hd. apply andb_true_iff in Hd.
    destruct Hd as [He Hd]. destruct e; try discriminate. cbn [values bind].
    destruct (NoDup_app_fresh _ _ _ Hnd) as [Hk Hnd'].
    rewrite sset_fresh by (apply smem_false_not_In, Hk).
    rewrite IH.
    + rewrite <- app_assoc. reflexivity.
    + rewrite map_app. exact Hnd'.
    + exact Hd.
Qed.

Lemma classes_loop_mixed (its : list (string * value)) :
  forallb is_dict (map snd its) = false ->
  forall out, raises (classes_loop its out) CAttributeError.
Proof.
  induction its as [|[k e] its IH]; intros H out; [discriminate|].
  cbn [map snd forallb] in H. cbn [classes_loop].
  destruct (is_dict e) eqn:E.
  - destruct e; try discriminate. cbn [values bind]. apply IH. exact H.
  - destruct e; try discriminate; cbn [values bind]; eexists; split; reflexivity.
Qed.

(** When every class type of [classes] has a mapping of its own, [classes]
    lists the labels of each class type, in table order, and [num_classes]
    is the number of class types, not the number of labels. *)
Theorem grouped_classes_count_class_types (r : DatasetMetadata)
        (d : list (string * value)) :
  sget "classes" (items (_metadata r)) = Some (VDict d) ->
  NoDup (map fst d) ->
  d <> [] ->
  forallb is_dict (map snd d) = true ->
  classes r = Ok (inl (ClassLists (map (fun kv => (fst kv, labels_of (snd kv))) d)))
  /\ num_classes r = Ok (inl (length d)).
Proof.
  intros Hc Hnd Hne Hd.
  assert (Hn : has_nested_dicts (VDict d) = true).
  { cbn [has_nested_dicts]. destruct d as [|[k e] d]; [contradiction|].
    cbn [map snd forallb existsb] in *. apply andb_true_iff in Hd.
    destruct Hd as [-> _]. reflexivity. }
  assert (Hcl : classes r
                = Ok (inl (ClassLists (map (fun kv => (fst kv, labels_of (snd kv))) d)))).
  { apply attribute_Ok. unfold classes_fget.
    rewrite (getitem_present _ _ _ Hc). cbn [bind].
    rewrite Hn. rewrite (classes_loop_all_dicts d []) by assumption. reflexivity. }
  split; [exact Hcl|].
  apply attribute_Ok. unfold num_classes_fget. rewrite Hcl. cbn [bind].
  rewrite length_map. reflexivity.
Qed.

Lemma grouped_classes_count_class_types_witness :
  (sget "classes" (items (_metadata plant_village))
   = Some (VDict [("crop", VDict [("0", VStr "apple"); ("1", VStr "grape")]);
                  ("disease", VDict [("0", VStr "healthy"); ("1", VStr "rust")])])
   /\ NoDup ["crop"; "disease"])
  /\ num_classes plant_village = Ok (inl 2%nat).
Proof.
  assert (N : NoDup ["crop"; "disease"]).
  { constructor; [intros [E|[]]; discriminate|].
    constructor; [intros [] | constructor]. }
  split; [split; [reflexivity | exact N]|].
  refine (proj2 (grouped_classes_count_class_types plant_village
                   [("crop", VDict [("0", VStr "apple"); ("1", VStr "grape")]);
                    ("disease", VDict [("0", VStr "healthy"); ("1", VStr "rust")])]
                   _ N _ _)); try reflexivity.
  discriminate.
Defined.

(** When [classes] has a mapping for some class type and a plain entry for
    another, the getter of [classes] raises [AttributeError] on the plain
    entry, so that reading [classes] gives the mapping of the record as it
    is, not lists of labels, and [num_classes] is the number of entries of
    that mapping. *)
Theorem classes_of_mixed_groups (r : DatasetMetadata) (d : list (string * value)) :
  sget "classes" (items (_metadata r)) = Some (VDict d) ->
  has_nested_dicts (VDict d) = true ->
  forallb is_dict (map snd d) = false ->
  raises (classes_fget r) CAttributeError
  /\ classes r = Ok (inr (VDict d))
  /\ num_classes r = Ok (inl (length d)).
Proof.
  intros Hc Hn Hm.
  assert (G : raises (classes_fget r) CAttributeError).
  { unfold classes_fget. rewrite (getitem_present _ _ _ Hc). cbn [bind].
    rewrite Hn. destruct (classes_loop_mixed d Hm []) as (e & -> & He).
    exists e. auto. }
  assert (Hcl : classes r = Ok (inr (VDict d))).
  { destruct G as (e & G & He). destruct e; try discriminate.
    pose proof (attribute_fallback r "classes" _ _ G) as F.
    rewrite Hc in F. exact F. }
  split; [exact G|]. split; [exact Hcl|].
  apply attribute_Ok. unfold num_classes_fget. rewrite Hcl. reflexivity.
Qed.

Lemma classes_of_mixed_groups_witness :
  (sget "classes" (items (_metadata mixed_registry)) = Some (VDict mixed_classes)
   /\ has_nested_dicts (VDict mixed_classes) = true
   /\ forallb is_dict (map snd mixed_classes) = false)
  /\ raises (classes_fget mixed_registry) CAttributeError
  /\ classes mixed_registry = Ok (inr (VDict mixed_classes))
  /\ num_classes mixed_registry = Ok (inl (length mixed_classes)).
Proof.
  split; [repeat split; reflexivity|].
  apply (classes_of_mixed_groups mixed_registry mixed_classes); reflexivity.
Defined.

Lemma dict_of_labels_total (vs : list value) :
  forallb hashable vs = true ->
  forall nums acc, exists m, dict_of_labels (combine vs nums) acc = Ok m.
Proof.
  induction vs as [|a vs IH]; intros Hh nums acc; [cbn; eauto|].
  destruct nums as [|n nums]; [cbn; eauto|].
  cbn [forallb] in Hh. apply andb_true_iff in Hh. destruct Hh as [Ha Hh].
  cbn [combine dict_of_labels]. rewrite Ha. apply IH, Hh.
Qed.

Lemma class_to_num_loop_shape (int_float : value -> result Z)
      (d : list (string * value)) :
  (forall k g, sget k d = Some (VDict g) ->
     (forall key, In key (map fst g) -> exists n, int_float (VStr key) = Ok n)
     /\ forallb hashable (map snd g) = true) ->
  forall ks out,
    (forall k, In k ks -> exists e, sget k d = Some e) ->
    NoDup (map fst out ++ ks) ->
    exists out',
      class_to_num_loop int_float d ks out = Ok out'
      /\ map fst out' = (map fst out ++ ks)%list
      /\ (forall x, In x out -> In x out')
      /\ forall k e, In k ks -> sget k d = Some e ->
           if is_dict e then exists m, In (k, Mapped m) out'
           else In (k, Verbatim e) out'.
Proof.
  intros Hg ks. induction ks as [|k ks IH]; intros out Hks Hnd.
  - exists out. cbn [class_to_num_loop]. rewrite app_nil_r.
    repeat split; auto. intros k e [].
  - destruct (Hks k (or_introl eq_refl)) as [e He].
    destruct (NoDup_app_fresh _ _ _ Hnd) as [Hk Hnd'].
    cbn [class_to_num_loop]. unfold subscript. rewrite He. cbn [bind].
    assert (Hstep : exists p : per_type (list (value * Z)),
               (if is_dict e then exists m, p = Mapped m else p = Verbatim e)
               /\ (if is_dict e
                   then (ks0 <- keys e ;; nums <- nums_of int_float ks0 ;;
                         vs <- values e ;;
                         m <- dict_of_labels (combine vs nums) [] ;;
                         class_to_num_loop int_float d ks (sset k (Mapped m) out))
                   else class_to_num_loop int_float d ks (sset k (Verbatim e) out))
                  = class_to_num_loop int_float d ks (out ++ [(k, p)])%list).
    { destruct e as [| | | | | |g|]; cbn [is_dict];
        try (eexists; split; [reflexivity|];
             rewrite sset_fresh by (apply smem_false_not_In, Hk); reflexivity).
      destruct (Hg k g He) as [Hcoerce Hhash].
      cbn [keys values bind]. unfold nums_of.
      destruct (mapM_total _ _ Hcoerce) as [nums ->]. cbn [bind].
      destruct (dict_of_labels_total _ Hhash nums []) as [m ->]. cbn [bind].
      exists (Mapped m). split; [eauto|].
      rewrite sset_fresh by (apply smem_false_not_In, Hk). reflexivity. }
    destruct Hstep as (p & Hp & ->).
    destruct (IH (out ++ [(k, p)])%list) as (out' & E & Hkeys & Hin & Hall).
    + intros k' Hk'. apply Hks. right. exact Hk'.
    + rewrite map_app. exact Hnd'.
    + exists out'. split; [exact E|]. split.
      * rewrite Hkeys, map_app, <- app_assoc. reflexivity.
      * split; [intros x Hx; apply Hin, in_or_app; auto|].
        intros k' e' [<-|Hk'] He'.
        -- rewrite He in He'. injection He' as <-.
           destruct (is_dict e).
           ++ destruct Hp as [m ->]. exists m. apply Hin, in_or_app. right. left. reflexivity.
           ++ subst p. apply Hin, in_or_app. right. left. reflexivity.
        -- apply Hall; assumption.
Qed.

Lemma sget_Some_In {V : Type} (d : list (string * V)) (k : string) (v : V) :
  sget k d = Some v -> In (k, v) d.
Proof.
  unfold sget. induction d as [|[k0 v0] d IH]; cbn; [discriminate|].
  destruct (String.eqb_spec k0 k) as [->|].
  - intros H. injection H as ->. auto.
  - auto.
Qed.

(** [class_to_num] on a [classes] mapping grouped by class type: when every
    group has keys that [int(float(.))] accepts and hashable labels, it
    returns one entry per class type, in table order; a class type whose
    entry is a mapping gets a mapping, and a class type whose entry is plain
    gets that entry unchanged. *)
Theorem class_to_num_of_grouped_classes (int_float : value -> result Z)
        (r : DatasetMetadata) (d : list (string * value)) :
  sget "classes" (items (_metadata r)) = Some (VDict d) ->
  NoDup (map fst d) ->
  has_nested_dicts (VDict d) = true ->
  (forall k g, In (k, VDict g) d ->
     (forall key, In key (map fst g) -> exists n, int_float (VStr key) = Ok n)
     /\ forallb hashable (map snd g) = true) ->
  exists out,
    class_to_num int_float r = Ok (inl (Nested out))
    /\ map fst out = map fst d
    /\ forall k e, In (k, e) d ->
         if is_dict e then exists m, In (k, Mapped m) out
         else In (k, Verbatim e) out.
Proof.
  intros Hc Hnd Hn Hg.
  assert (Hsget : forall k e, In (k, e) d <-> sget k d = Some e).
  { intros k e. split; [intros H; apply sget_In_NoDup; assumption | apply sget_Some_In]. }
  destruct (class_to_num_loop_shape int_float d) with (ks := map fst d) (out := @nil (string * per_type (list (value * Z))))
    as (out & E & Hkeys & _ & Hall).
  - intros k g Hk. apply (Hg k g), Hsget, Hk.
  - intros k Hk. apply in_map_iff in Hk. destruct Hk as ([k' e] & <- & Hin).
    exists e. apply Hsget, Hin.
  - exact Hnd.
  - exists out. split.
    { apply attribute_Ok. unfold class_to_num_fget.
      rewrite (getitem_present _ _ _ Hc). cbn [bind]. rewrite Hn, E. reflexivity. }
    split; [exact Hkeys|].
    intros k e Hin. apply Hall; [|apply Hsget, Hin].
    apply in_map_iff. exists (k, e). auto.
Qed.

Lemma class_to_num_of_grouped_classes_witness :
  (sget "classes" (items (_metadata mixed_registry)) = Some (VDict mixed_classes)
   /\ has_nested_dicts (VDict mixed_classes) = true)
  /\ exists out,
      class_to_num int_float_plain mixed_registry = Ok (inl (Nested out))
      /\ map fst out = map fst mixed_classes
      /\ forall k e, In (k, e) mixed_classes ->
           if is_dict e then exists m, In (k, Mapped m) out
           else In (k, Verbatim e) out.
Proof.
  split; [split; reflexivity|].
  apply (class_to_num_of_grouped_classes int_float_plain mixed_registry mixed_classes).
  - reflexivity.
  - constructor; [intros [E|[]]; discriminate|].
    constructor; [intros [] | constructor].
  - reflexivity.
  - intros k g [E|[E|[]]]; [|discriminate].
    injection E as <- <-. split; [|reflexivity].
    intros key [<-|[<-|[]]]; eexists; reflexivity.
Defined.

End RegistryProperties.
